(** * ArturiaMidiProcessor: the input-handling core of the KeyLab mkII script

    A shallow embedding of [arturia_processor.py].  The processor object is a
    record of its attributes; every method is a function that takes the state
    and returns the next one.  Calls that leave the processor (FL Studio
    modules, the controller's encoders, lights, display and scheduler) are
    appended, in program order, to the [calls] trace of the state.
    [debug.log] is a diagnostic sink and is left out of the trace. *)

From Stdlib Require Import ZArith List String Bool Lia DecimalString.
From stdpp Require Import base gmap strings.
Import ListNotations.
Open Scope Z_scope.

(** ** Events *)

(** The fields of the host's MIDI event object that the processor reads, and
    the one it writes ([handled]). *)
Record Event := mkEvent {
  midiId : Z;
  status : Z;
  controlNum : Z;
  controlVal : Z;
  pmeFlags : Z;
  handled : bool
}.

(** [event.handled = b] *)
Definition set_handled (b : bool) (e : Event) : Event :=
  mkEvent (midiId e) (status e) (controlNum e) (controlVal e) (pmeFlags e) b.

(** ** Module constants *)

Definition SS_STOP : Z := 0.
Definition SS_START : Z := 2.

Definition LOOP_BUTTON_MASK : Z := 0x1.
Definition REC_BUTTON_MASK : Z := 0x2.
Definition PLAY_BUTTON_MASK : Z := 0x4.
Definition STOP_BUTTON_MASK : Z := 0x8.
Definition LEFT_BUTTON_MASK : Z := 0x16.
Definition RIGHT_BUTTON_MASK : Z := 0x32.

(** The six modifier masks, in declaration order. *)
Definition BUTTON_MASKS : list Z :=
  [LOOP_BUTTON_MASK; REC_BUTTON_MASK; PLAY_BUTTON_MASK; STOP_BUTTON_MASK;
   LEFT_BUTTON_MASK; RIGHT_BUTTON_MASK].

(** A mask owns a single bit when it is a power of two. *)
Definition single_bit (m : Z) : bool :=
  (0 <? m) && (m =? 2 ^ Z.log2 m).

(** Two masks overlap when they have a bit in common. *)
Definition overlaps (a b : Z) : bool := negb (Z.land a b =? 0).

(** All masks of the list are pairwise disjoint. *)
Fixpoint pairwise_disjoint (l : list Z) : bool :=
  match l with
  | [] => true
  | m :: rest => forallb (fun m' => negb (overlaps m m')) rest && pairwise_disjoint rest
  end.

(** ** Names owned by the host and by sibling modules *)

(** [midi.wid*] window identifiers. *)
Inductive Window := widMixer | widChannelRack | widPlaylist | widPianoRoll.

(** [midi.FPT_*] global transport commands used by the processor. *)
Inductive FPT :=
| FPT_Jog | FPT_Jog2 | FPT_HZoomJog | FPT_VZoomJog | FPT_MixerWindowJog
| FPT_Play | FPT_LoopRecord.

(** Second argument of [transport.globalTransport]: a signed amount, or the
    command constant itself. *)
Inductive GTValue := GTInt (z : Z) | GTCmd (c : FPT).

(** [arturia_midi.INTER_SCRIPT_DATA1_BTN_{DOWN,UP}_CMD]. *)
Inductive InterScriptCmd := INTER_SCRIPT_DATA1_BTN_DOWN_CMD | INTER_SCRIPT_DATA1_BTN_UP_CMD.

(** The long-press callbacks that [_detect_long_press] is given in this file;
    a scheduled task stores the callback by name together with its event. *)
Inductive LongPressFn :=
| OnGlobalUndoLongPress | OnTrackRecordLongPress
| OnNavigationLeftLongPress | OnNavigationRightLongPress
| OnBankNextLongPress | OnBankPrevLongPress.

(** Calls that leave the processor, with their arguments. *)
Inductive Call :=
| transport_globalTransport (command : FPT) (value : GTValue) (flags : option Z)
| transport_stop
| transport_record
| transport_setLoopMode
| metronome_Reset
| dispatch_message_to_other_scripts (data1 : InterScriptCmd) (data2 : Z)
| ui_selectWindow (backwards : bool)
| ui_moveJog (amount : Z)
| ui_showWindow (w : Window)
| ui_setFocused (w : Window)
| ui_setHintMsg (msg : string)
| patterns_jumpToPattern (index : Z)
| playlist_setTrackName (index : Z) (name : string)
| channels_selectOneChannel (index : Z)
| channels_deselectAll
| channels_selectChannel (index value : Z)
| encoders_ProcessSliderInput (slider_index slider_value : Z)
| encoders_ProcessKnobInput (idx delta : Z)
| navigation_UpdateValue (delta : Z)
| display_SetPageLines (page line1 line2 : string)
| display_SetActivePage (page : string) (expires : option Z)
| scheduler_ScheduleTask (fn : LongPressFn) (ev : Event) (delay : Z)
| scheduler_CancelTask (task : nat)
| self_OnUpdateTimeMarker (delta power : Z).

(** ** Host model *)

(** The FL Studio modules are outside the repository.  The host is a store of
    the values the processor reads back; a command updates the value it
    names and nothing else. *)
Record Host := mkHost {
  patternCount : Z;
  patternNumber : Z;
  getPatternName : Z -> string;
  channelCount : Z;
  selectedChannel : Z;
  getChannelName : Z -> string;
  trackCount : Z;
  getTrackName : Z -> string;
  getVisible : Window -> bool;
  getFocused : Window -> bool;
  getLoopMode : Z;
  time_ms : Z
}.

Definition Window_eqb (a b : Window) : bool :=
  match a, b with
  | widMixer, widMixer | widChannelRack, widChannelRack
  | widPlaylist, widPlaylist | widPianoRoll, widPianoRoll => true
  | _, _ => false
  end.

Definition host_apply (c : Call) (h : Host) : Host :=
  match c with
  | patterns_jumpToPattern i =>
      mkHost (patternCount h) i (getPatternName h) (channelCount h) (selectedChannel h)
        (getChannelName h) (trackCount h) (getTrackName h) (getVisible h) (getFocused h)
        (getLoopMode h) (time_ms h)
  | playlist_setTrackName i name =>
      mkHost (patternCount h) (patternNumber h) (getPatternName h) (channelCount h)
        (selectedChannel h) (getChannelName h) (trackCount h)
        (fun j => if j =? i then name else getTrackName h j)
        (getVisible h) (getFocused h) (getLoopMode h) (time_ms h)
  | channels_selectOneChannel i | channels_selectChannel i _ =>
      mkHost (patternCount h) (patternNumber h) (getPatternName h) (channelCount h) i
        (getChannelName h) (trackCount h) (getTrackName h) (getVisible h) (getFocused h)
        (getLoopMode h) (time_ms h)
  | ui_showWindow w =>
      mkHost (patternCount h) (patternNumber h) (getPatternName h) (channelCount h)
        (selectedChannel h) (getChannelName h) (trackCount h) (getTrackName h)
        (fun w' => if Window_eqb w' w then true else getVisible h w')
        (getFocused h) (getLoopMode h) (time_ms h)
  | ui_setFocused w =>
      mkHost (patternCount h) (patternNumber h) (getPatternName h) (channelCount h)
        (selectedChannel h) (getChannelName h) (trackCount h) (getTrackName h)
        (getVisible h) (fun w' => Window_eqb w' w) (getLoopMode h) (time_ms h)
  | _ => h
  end.

(** ** Paged display *)

(** Modelled from the spec: the paged display of [arturia_display], which is
    not in the source tree.  A page is a name with two text lines; the active
    page is a persistent page, or a transient page with an expiry timestamp
    that reverts to the persistent one once the expiry has elapsed.  Only one
    transient page is pending: a new one replaces it. *)
Record PagedDisplay := mkDisplay {
  page_lines : gmap string (string * string);
  persistent_page : option string;
  transient_page : option (string * Z)
}.

(** Modelled from the spec: [SetPageLines] stores the two lines of a page of
    the paged display. *)
Definition SetPageLines (page line1 line2 : string) (d : PagedDisplay) : PagedDisplay :=
  mkDisplay (<[page := (line1, line2)]> (page_lines d)) (persistent_page d) (transient_page d).

(** Modelled from the spec: [SetActivePage] of the paged display.  With an
    expiry the page is transient and replaces any pending transient page;
    without one it becomes the persistent page. *)
Definition SetActivePage (page : string) (expires : option Z) (now : Z)
    (d : PagedDisplay) : PagedDisplay :=
  match expires with
  | Some ms => mkDisplay (page_lines d) (persistent_page d) (Some (page, now + ms))
  | None => mkDisplay (page_lines d) (Some page) None
  end.

(** Modelled from the spec: the page the paged display shows at time [now];
    an expired transient page reverts to the persistent one. *)
Definition shown_page (now : Z) (d : PagedDisplay) : option string :=
  match transient_page d with
  | Some (page, expiry) => if now <? expiry then Some page else persistent_page d
  | None => persistent_page d
  end.

Definition display_apply (c : Call) (now : Z) (d : PagedDisplay) : PagedDisplay :=
  match c with
  | display_SetPageLines page line1 line2 => SetPageLines page line1 line2 d
  | display_SetActivePage page expires => SetActivePage page expires now d
  | _ => d
  end.

(** ** Scheduler *)

(** A delayed action: [lambda: long_fn(event)] with its delay in ms. *)
Record Task := mkTask {
  task_fn : LongPressFn;
  task_event : Event;
  task_delay : Z
}.

(** Modelled from the spec: the controller's scheduler, which is not in the
    source tree.  [Schedule(delay) -> handle] registers a pending task under a
    fresh handle; [Cancel(handle) -> bool] succeeds exactly when the task is
    still pending, and removes it, so that a task is cancelled at most once. *)
Record Scheduler := mkScheduler {
  next_handle : nat;
  pending : gmap nat Task
}.

(** Modelled from the spec: [Schedule(delay) -> handle] of the scheduler. *)
Definition ScheduleTask (t : Task) (s : Scheduler) : nat * Scheduler :=
  (next_handle s, mkScheduler (S (next_handle s)) (<[next_handle s := t]> (pending s))).

(** Modelled from the spec: [Cancel(handle) -> bool] of the scheduler. *)
Definition CancelTask (task : nat) (s : Scheduler) : bool * Scheduler :=
  match pending s !! task with
  | Some _ => (true, mkScheduler (next_handle s) (delete task (pending s)))
  | None => (false, s)
  end.

(** ** Processor state *)

(** [SCRIPT_VERSION] and the [config] switches read by the modelled methods. *)
Record Globals := mkGlobals {
  SCRIPT_VERSION : Z;
  ENABLE_PIANO_ROLL_FOCUS_DURING_RECORD_AND_PLAYBACK : bool;
  ENABLE_CONTROLS_FL_HINTS : bool
}.

(** The attributes of [ArturiaMidiProcessor] used by the modelled methods,
    followed by the environment they act on. *)
Record St := mkSt {
  _current_playlist_track_index : Z;
  _pattern_mode_down : bool;
  _playlist_track_updated : bool;
  _button_hold_action_committed : bool;
  _button_mode : Z;
  _long_press_tasks : gmap Z nat;
  _is_pad_recording : bool;
  globals : Globals;
  host : Host;
  display : PagedDisplay;
  scheduler : Scheduler;
  calls : list Call
}.

Definition set_current_playlist_track_index (v : Z) (s : St) : St :=
  mkSt v (_pattern_mode_down s) (_playlist_track_updated s) (_button_hold_action_committed s)
    (_button_mode s) (_long_press_tasks s) (_is_pad_recording s) (globals s) (host s)
    (display s) (scheduler s) (calls s).

Definition set_pattern_mode_down (v : bool) (s : St) : St :=
  mkSt (_current_playlist_track_index s) v (_playlist_track_updated s)
    (_button_hold_action_committed s) (_button_mode s) (_long_press_tasks s)
    (_is_pad_recording s) (globals s) (host s) (display s) (scheduler s) (calls s).

Definition set_playlist_track_updated (v : bool) (s : St) : St :=
  mkSt (_current_playlist_track_index s) (_pattern_mode_down s) v
    (_button_hold_action_committed s) (_button_mode s) (_long_press_tasks s)
    (_is_pad_recording s) (globals s) (host s) (display s) (scheduler s) (calls s).

Definition set_button_hold_action_committed (v : bool) (s : St) : St :=
  mkSt (_current_playlist_track_index s) (_pattern_mode_down s) (_playlist_track_updated s)
    v (_button_mode s) (_long_press_tasks s) (_is_pad_recording s) (globals s) (host s)
    (display s) (scheduler s) (calls s).

Definition set_button_mode (v : Z) (s : St) : St :=
  mkSt (_current_playlist_track_index s) (_pattern_mode_down s) (_playlist_track_updated s)
    (_button_hold_action_committed s) v (_long_press_tasks s) (_is_pad_recording s)
    (globals s) (host s) (display s) (scheduler s) (calls s).

Definition set_long_press_tasks (v : gmap Z nat) (s : St) : St :=
  mkSt (_current_playlist_track_index s) (_pattern_mode_down s) (_playlist_track_updated s)
    (_button_hold_action_committed s) (_button_mode s) v (_is_pad_recording s)
    (globals s) (host s) (display s) (scheduler s) (calls s).

Definition set_is_pad_recording (v : bool) (s : St) : St :=
  mkSt (_current_playlist_track_index s) (_pattern_mode_down s) (_playlist_track_updated s)
    (_button_hold_action_committed s) (_button_mode s) (_long_press_tasks s) v
    (globals s) (host s) (display s) (scheduler s) (calls s).

Definition set_scheduler (v : Scheduler) (s : St) : St :=
  mkSt (_current_playlist_track_index s) (_pattern_mode_down s) (_playlist_track_updated s)
    (_button_hold_action_committed s) (_button_mode s) (_long_press_tasks s)
    (_is_pad_recording s) (globals s) (host s) (display s) v (calls s).

(** Perform an outgoing call: log it and let the host and the display react. *)
Definition emit (c : Call) (s : St) : St :=
  mkSt (_current_playlist_track_index s) (_pattern_mode_down s) (_playlist_track_updated s)
    (_button_hold_action_committed s) (_button_mode s) (_long_press_tasks s)
    (_is_pad_recording s) (globals s)
    (host_apply c (host s))
    (display_apply c (time_ms (host s)) (display s))
    (scheduler s)
    (calls s ++ [c]).

(** [self._controller.scheduler().ScheduleTask(lambda: long_fn(event), delay=delay)] *)
Definition scheduler_schedule (long_fn : LongPressFn) (ev : Event) (delay : Z)
    (s : St) : nat * St :=
  let '(task, sch) := ScheduleTask (mkTask long_fn ev delay) (scheduler s) in
  (task, set_scheduler sch (emit (scheduler_ScheduleTask long_fn ev delay) s)).

(** [self._controller.scheduler().CancelTask(task)] *)
Definition scheduler_cancel (task : nat) (s : St) : bool * St :=
  let '(ok, sch) := CancelTask task (scheduler s) in
  (ok, set_scheduler sch (emit (scheduler_CancelTask task) s)).

(** The host clock advances between two events. *)
Definition advance_clock (dt : Z) (s : St) : St :=
  let h := host s in
  mkSt (_current_playlist_track_index s) (_pattern_mode_down s) (_playlist_track_updated s)
    (_button_hold_action_committed s) (_button_mode s) (_long_press_tasks s)
    (_is_pad_recording s) (globals s)
    (mkHost (patternCount h) (patternNumber h) (getPatternName h) (channelCount h)
       (selectedChannel h) (getChannelName h) (trackCount h) (getTrackName h)
       (getVisible h) (getFocused h) (getLoopMode h) (time_ms h + dt))
    (display s) (scheduler s) (calls s).

(** The processor as [__init__] leaves it. *)
Definition init (g : Globals) (h : Host) : St :=
  mkSt 1 false false false 0 ∅ false g h
    (mkDisplay ∅ None None) (mkScheduler 0 ∅) [].

(** ** Python helpers *)

(** [range(a, b)] *)
Definition range (a b : Z) : list Z := seqZ a (b - a).

(** ['%d' % n] *)
Definition fmt_d (n : Z) : string := NilZero.string_of_int (Z.to_int n).

(** [name[2:]] *)
Definition drop2 (name : string) : string :=
  String.substring 2 (String.length name - 2) name.

(** ** Methods of [ArturiaMidiProcessor] *)

Definition _is_pressed (event : Event) : bool := negb (controlVal event =? 0).

Definition clip (low high x : Z) : Z := Z.max low (Z.min high x).

Definition NotifyPadRecordingState (is_recording : bool) (s : St) : St :=
  set_is_pad_recording is_recording s.

Definition _strip_pattern_name (name : string) : string :=
  if String.prefix "* " name then drop2 name else name.

Definition _display_hint (line1 line2 : option string) (s : St) : St :=
  let line1 := match line1 with None => " "%string | Some l => l end in
  let line2 := match line2 with None => " "%string | Some l => l end in
  let s := emit (display_SetPageLines "hint" line1 line2) s in
  emit (display_SetActivePage "hint" (Some 1500)) s.

Definition _display_playlist_track_op_hint (title : string) (s : St) : St :=
  let track_name :=
    _strip_pattern_name (getTrackName (host s) (_current_playlist_track_index s)) in
  _display_hint (Some title)
    (Some (fmt_d (_current_playlist_track_index s) ++ ": " ++ track_name)%string) s.

Definition _display_playlist_track_hint (s : St) : St :=
  _display_playlist_track_op_hint "Playlist Track" s.

(** Body of the loop of [_deselect_all_playlist_track]. *)
Definition _deselect_playlist_track (s : St) (i : Z) : St :=
  let track_name := getTrackName (host s) i in
  if String.prefix "* " track_name
  then emit (playlist_setTrackName i (drop2 track_name)) s
  else s.

Definition _deselect_all_playlist_track (s : St) : St :=
  fold_left _deselect_playlist_track (range 1 (trackCount (host s))) s.

(** The loop of [_select_pattern_named] over the indices still to visit; it
    returns at the first match. *)
Fixpoint _select_pattern_named_loop (name : string) (indices : list Z) (s : St) : St :=
  match indices with
  | [] => s
  | i :: rest =>
      if String.eqb (_strip_pattern_name (getPatternName (host s) i)) name
      then emit (patterns_jumpToPattern i) s
      else _select_pattern_named_loop name rest s
  end.

Definition _select_pattern_named (name : string) (s : St) : St :=
  _select_pattern_named_loop name (range 1 (patternCount (host s) + 1)) s.

Definition _select_playlist_track (track_index : Z) (s : St) : St :=
  let name := getTrackName (host s) track_index in
  let s := set_current_playlist_track_index track_index s in
  if String.prefix "* " name then s
  else
    let s := _deselect_all_playlist_track s in
    let s := _select_pattern_named name s in
    emit (playlist_setTrackName track_index ("* " ++ name)%string) s.

(** The loop of [_select_playlist_track_named]; it returns at the first match. *)
Fixpoint _select_playlist_track_named_loop (name : string) (indices : list Z) (s : St) : St :=
  match indices with
  | [] => s
  | i :: rest =>
      let track_name := _strip_pattern_name (getTrackName (host s) i) in
      if String.eqb track_name name
      then _select_playlist_track i s
      else _select_playlist_track_named_loop name rest s
  end.

Definition _select_playlist_track_named (name : string) (s : St) : St :=
  _select_playlist_track_named_loop name (range 1 (trackCount (host s))) s.

Definition _change_playlist_track (delta : Z) (s : St) : St :=
  let next := _current_playlist_track_index s + delta in
  let s := if (0 <? next) && (next <=? trackCount (host s))
           then _select_playlist_track next s else s in
  let s := _display_playlist_track_hint s in
  set_playlist_track_updated true s.

Definition _jump_and_sync_select_pattern (index : Z) (s : St) : St :=
  let s := emit (patterns_jumpToPattern index) s in
  let name := _strip_pattern_name (getPatternName (host s) index) in
  _select_playlist_track_named name s.

Definition OnUpdatePattern (delta : Z) (s : St) : St :=
  let index := clip 1 (patternCount (host s)) (patternNumber (host s) + delta) in
  _jump_and_sync_select_pattern index s.

Definition _select_one_channel (index : Z) (s : St) : St :=
  let s := if 8 <=? SCRIPT_VERSION (globals s)
           then emit (channels_selectOneChannel index) s
           else emit (channels_selectChannel index 1) (emit channels_deselectAll s) in
  if ENABLE_CONTROLS_FL_HINTS (globals s)
  then emit (ui_setHintMsg
               ("[" ++ fmt_d (selectedChannel (host s) + 1) ++ ":"
                  ++ fmt_d (patternNumber (host s)) ++ "] "
                  ++ getChannelName (host s) (selectedChannel (host s)))%string) s
  else s.

Definition OnUpdateChannel (delta : Z) (s : St) : St :=
  let index := clip 0 (channelCount (host s) - 1) (selectedChannel (host s) + delta) in
  _select_one_channel index s.

Definition OnUpdatePlaylistTrack (delta : Z) (s : St) : St :=
  let track := Z.max 1 (Z.min (trackCount (host s)) (_current_playlist_track_index s + delta)) in
  _select_playlist_track track s.

(** The body of [OnUpdateTimeMarker] is floating-point arithmetic on the song
    position; the call is kept whole, with its two arguments. *)
Definition OnUpdateTimeMarker (delta power : Z) (s : St) : St :=
  emit (self_OnUpdateTimeMarker delta power) s.

Definition _get_knob_delta (event : Event) : Z :=
  let val := controlVal event in
  if val <? 64 then val else 64 - val.

Definition _horizontal_scroll (delta power : Z) (s : St) : St :=
  if getFocused (host s) widPianoRoll then OnUpdateTimeMarker delta power s
  else if getFocused (host s) widPlaylist then OnUpdateTimeMarker delta power s
  else emit (transport_globalTransport FPT_Jog (GTInt delta) None) s.

Definition OnNavigationKnobTurned (event : Event) (s : St) : St :=
  let delta := _get_knob_delta event in
  if _pattern_mode_down s then _change_playlist_track delta s
  else if negb (_button_mode s =? 0) then
    let s :=
      if _button_mode s =? LOOP_BUTTON_MASK then
        let s := emit (transport_globalTransport FPT_HZoomJog (GTInt delta) None) s in
        emit (transport_globalTransport FPT_Jog (GTInt 0) None) s
      else if _button_mode s =? REC_BUTTON_MASK then _horizontal_scroll delta 0 s
      else if _button_mode s =? PLAY_BUTTON_MASK then
        emit (transport_globalTransport FPT_VZoomJog (GTInt delta) None) s
      else if _button_mode s =? STOP_BUTTON_MASK then
        emit (transport_globalTransport FPT_Jog2 (GTInt delta) None) s
      else if _button_mode s =? LEFT_BUTTON_MASK then
        emit (ui_selectWindow (delta <? 0)) s
      else if _button_mode s =? RIGHT_BUTTON_MASK then
        emit (transport_globalTransport FPT_MixerWindowJog (GTInt delta) None) s
      else s in
    set_button_hold_action_committed true s
  else emit (navigation_UpdateValue delta) s.

(** [int(delta * (24.0 * 2.0 ** (idx - 3)))]: the factor is a power of two
    times 24, so the product is exact in double precision for MIDI data
    bytes, and [int] truncates towards zero. *)
Definition jog_amount (delta idx : Z) : Z :=
  if 3 <=? idx then delta * 24 * 2 ^ (idx - 3)
  else Z.quot (delta * 24) (2 ^ (3 - idx)).

Definition OnPanKnobTurned (event : Event) (s : St) : St :=
  let idx := controlNum event - 16 in
  let delta := _get_knob_delta event in
  let s := set_button_hold_action_committed true s in
  if _button_mode s =? LOOP_BUTTON_MASK then
    if idx <=? 7 then emit (ui_moveJog (jog_amount delta idx)) s
    else if idx =? 8 then emit (ui_moveJog delta) s
    else s
  else if _button_mode s =? REC_BUTTON_MASK then
    if idx <=? 6 then _horizontal_scroll delta idx s else s
  else if _button_mode s =? 0 then emit (encoders_ProcessKnobInput idx delta) s
  else s.

Definition _show_and_focus (window : Window) (s : St) : St :=
  let s := if negb (getVisible (host s) window) then emit (ui_showWindow window) s else s in
  if negb (getFocused (host s) window) then emit (ui_setFocused window) s else s.

(** The first argument of [dispatch_message_to_other_scripts] is always
    [INTER_SCRIPT_STATUS_BYTE] and is not repeated in the trace. *)
Definition OnTransportsStop (event : Event) (s : St) : St :=
  let '(data1, s) :=
    if _is_pressed event then
      let s := set_button_mode (Z.lor (_button_mode s) STOP_BUTTON_MASK) s in
      let s := set_button_hold_action_committed false s in
      (INTER_SCRIPT_DATA1_BTN_DOWN_CMD, s)
    else
      let s := set_button_mode (Z.land (_button_mode s) (Z.lnot STOP_BUTTON_MASK)) s in
      let s := if negb (_button_hold_action_committed s)
               then emit transport_stop (emit metronome_Reset s)
               else s in
      (INTER_SCRIPT_DATA1_BTN_UP_CMD, s) in
  emit (dispatch_message_to_other_scripts data1 (controlNum event)) s.

Definition OnTransportsPausePlay (event : Event) (s : St) : St :=
  if _is_pressed event then
    let s := set_button_mode (Z.lor (_button_mode s) PLAY_BUTTON_MASK) s in
    set_button_hold_action_committed false s
  else
    let s := set_button_mode (Z.land (_button_mode s) (Z.lnot PLAY_BUTTON_MASK)) s in
    if _button_hold_action_committed s then s
    else
      let song_mode := getLoopMode (host s) =? 1 in
      let s :=
        if ENABLE_PIANO_ROLL_FOCUS_DURING_RECORD_AND_PLAYBACK (globals s) then
          if song_mode then _show_and_focus widPlaylist s
          else _show_and_focus widPianoRoll s
        else s in
      emit (transport_globalTransport FPT_Play (GTCmd FPT_Play) (Some (pmeFlags event))) s.

Definition OnTransportsRecord (event : Event) (s : St) : St :=
  if _is_pressed event then
    let s := set_button_mode (Z.lor (_button_mode s) REC_BUTTON_MASK) s in
    let s := set_button_hold_action_committed false s in
    emit (dispatch_message_to_other_scripts INTER_SCRIPT_DATA1_BTN_DOWN_CMD (controlNum event)) s
  else
    let s := set_button_mode (Z.land (_button_mode s) (Z.lnot REC_BUTTON_MASK)) s in
    let s := emit (dispatch_message_to_other_scripts INTER_SCRIPT_DATA1_BTN_UP_CMD
                     (controlNum event)) s in
    if _button_hold_action_committed s then s
    else if negb (_is_pad_recording s) then emit transport_record s
    else s.

Definition OnTransportsLoop (event : Event) (s : St) : St :=
  if _is_pressed event then
    let s := set_button_mode (Z.lor (_button_mode s) LOOP_BUTTON_MASK) s in
    set_button_hold_action_committed false s
  else
    let s := set_button_mode (Z.land (_button_mode s) (Z.lnot LOOP_BUTTON_MASK)) s in
    if _button_hold_action_committed s then s
    else emit (transport_globalTransport FPT_LoopRecord (GTCmd FPT_LoopRecord)
                 (Some (pmeFlags event))) s.

Definition OnGlobalSave (event : Event) (s : St) : St :=
  if _is_pressed event then
    let s := set_pattern_mode_down true s in
    set_playlist_track_updated false s
  else
    let s := set_pattern_mode_down false s in
    if negb (_playlist_track_updated s) then emit transport_setLoopMode s else s.

(** [short_fn] is called in place; [long_fn] is handed to the scheduler inside
    [lambda: long_fn(event)]. *)
Definition _detect_long_press (event : Event) (short_fn : Event -> St -> St)
    (long_fn : LongPressFn) (s : St) : St :=
  let control_id := controlNum event in
  if _is_pressed event then
    let '(task, s) := scheduler_schedule long_fn event 450 s in
    set_long_press_tasks (<[control_id := task]> (_long_press_tasks s)) s
  else
    match _long_press_tasks s !! control_id with
    | Some task =>
        let '(ok, s) := scheduler_cancel task s in
        if ok then short_fn event s else s
    | None => s
    end.

(** ** Dispatch *)

(** A registered callback receives the event object and may write to it. *)
Definition Handler : Type := Event -> St -> Event * St.
Definition Guard : Type := Event -> bool.

(** A method that only reads its event. *)
Definition reads (m : Event -> St -> St) : Handler := fun event s => (event, m event s).

(** Modelled from the spec: [MidiEventDispatcher] of [arturia_midi], which is
    not in the source tree.  A routing table keyed by an integer extracted
    from the event; each entry is a callback with a guard predicate, whose
    default is "value is nonzero". *)
Record MidiEventDispatcher := mkDispatcher {
  transform_fn : Event -> Z;
  dispatch_map : gmap Z (Handler * Guard)
}.

(** Modelled from the spec: the default guard of a [MidiEventDispatcher]
    entry, "value is nonzero". *)
Definition default_guard : Guard := fun event => negb (controlVal event =? 0).

(** Modelled from the spec: exact-key registration of [MidiEventDispatcher];
    an entry registered later under the same key replaces the earlier one. *)
Definition SetHandler (key : Z) (callback_fn : Handler) (filter_fn : option Guard)
    (d : MidiEventDispatcher) : MidiEventDispatcher :=
  mkDispatcher (transform_fn d)
    (<[key := (callback_fn, default default_guard filter_fn)]> (dispatch_map d)).

(** Modelled from the spec: range registration of [MidiEventDispatcher], the
    same callback and guard under every key of the range. *)
Definition SetHandlerForKeys (keys : list Z) (callback_fn : Handler)
    (filter_fn : option Guard) (d : MidiEventDispatcher) : MidiEventDispatcher :=
  fold_left (fun d k => SetHandler k callback_fn filter_fn d) keys d.

(** Modelled from the spec: [Dispatch(event) -> bool].  Looks up the entry for
    the event's key; if found and the guard passes, invokes the callback and
    returns true; otherwise returns false and leaves the event alone. *)
Definition Dispatch (d : MidiEventDispatcher) (event : Event) (s : St) : bool * Event * St :=
  match (dispatch_map d !! transform_fn d event : option (Handler * Guard)) with
  | Some (callback_fn, filter_fn) =>
      if filter_fn event
      then let '(event, s) := callback_fn event s in (true, event, s)
      else (false, event, s)
  | None => (false, event, s)
  end.

Definition by_midi_id (event : Event) : Z := midiId event.
Definition by_control_num (event : Event) : Z := controlNum event.

(** [self._knob_dispatcher] as built by [__init__]. *)
Definition _knob_dispatcher : MidiEventDispatcher :=
  SetHandler 60 (reads OnNavigationKnobTurned) None
    (SetHandlerForKeys (range 16 25) (reads OnPanKnobTurned) None
       (mkDispatcher by_control_num ∅)).

(** The class handlers take the command dispatcher as the attribute
    [self._midi_command_dispatcher]; the theorems hold for any table. *)
Definition OnCommandEvent (_midi_command_dispatcher : MidiEventDispatcher) : Handler :=
  fun (event : Event) (s : St) =>
    let '(_, event, s) := Dispatch _midi_command_dispatcher event s in
    (event, s).

Definition OnKnobEvent : Handler :=
  fun (event : Event) (s : St) =>
    let event := set_handled false event in
    let '(_, event, s) := Dispatch _knob_dispatcher event s in
    (event, s).

Definition OnSliderEvent : Handler :=
  fun (event : Event) (s : St) =>
    let event := set_handled false event in
    let slider_index := status event - midiId event in
    let slider_value := controlVal event in
    let slider_value :=
      if SCRIPT_VERSION (globals s) <? 8
      then (if 126 <=? slider_value then 127 else slider_value)
      else slider_value in
    (event, emit (encoders_ProcessSliderInput slider_index slider_value) s).

(** [self._midi_id_dispatcher] as built by [__init__]. *)
Definition _midi_id_dispatcher (_midi_command_dispatcher : MidiEventDispatcher)
    : MidiEventDispatcher :=
  SetHandler 224 OnSliderEvent None
    (SetHandler 176 OnKnobEvent None
       (SetHandler 144 (OnCommandEvent _midi_command_dispatcher) None
          (mkDispatcher by_midi_id ∅))).

Definition ProcessEvent (_midi_command_dispatcher : MidiEventDispatcher)
    (event : Event) (s : St) : bool * Event * St :=
  Dispatch (_midi_id_dispatcher _midi_command_dispatcher) event s.

(** ** Specification predicates *)

(** The index a call passes to the host lies inside the host's collection:
    patterns and playlist tracks are numbered from 1, channels from 0. *)
Definition index_in_range (h : Host) (c : Call) : Prop :=
  match c with
  | patterns_jumpToPattern i => 1 <= i <= patternCount h
  | playlist_setTrackName i _ => 1 <= i <= trackCount h
  | channels_selectOneChannel i | channels_selectChannel i _ => 0 <= i <= channelCount h - 1
  | _ => True
  end.

(** [s'] is reached from [s] by calls whose indices are all in range; the
    sizes of the host collections are the same in both. *)
Definition in_range_run (s s' : St) : Prop :=
  exists l,
    calls s' = calls s ++ l /\
    Forall (index_in_range (host s)) l /\
    patternCount (host s') = patternCount (host s) /\
    trackCount (host s') = trackCount (host s) /\
    channelCount (host s') = channelCount (host s).

(** Every callback of the table only reads its event. *)
Definition read_only_table (d : MidiEventDispatcher) : Prop :=
  forall k callback_fn filter_fn,
    dispatch_map d !! k = Some (callback_fn, filter_fn) ->
    exists m, callback_fn = reads m.

(** ** A sample session *)

Definition sample_globals_v7 : Globals := mkGlobals 7 false true.
Definition sample_globals_v20 : Globals := mkGlobals 20 true true.

(** Three patterns, four channels and five playlist tracks; the first track
    is linked to the pattern "Drums". *)
Definition sample_host : Host :=
  mkHost 3 1
    (fun i => if i =? 1 then "Drums"%string else if i =? 2 then "* Bass"%string
              else "Lead"%string)
    4 0 (fun _ => "Chan"%string)
    5
    (fun i => if i =? 1 then "* Drums"%string else if i =? 2 then "Bass"%string
              else "Track"%string)
    (fun _ => false) (fun _ => false) 0 1000.

Definition sample_v7 : St := init sample_globals_v7 sample_host.
Definition sample_v20 : St := init sample_globals_v20 sample_host.

(** A button or knob message for control [num] with value [val]. *)
Definition control_event (midi_id num val : Z) : Event :=
  mkEvent midi_id midi_id num val 0 true.

(** Slider 3 (status 226) at value 126. *)
Definition slider_event_126 : Event := mkEvent 224 226 0 126 0 true.

(** A short-press callback that leaves one call in the trace. *)
Definition sample_short_fn (event : Event) (s : St) : St :=
  emit (transport_globalTransport FPT_LoopRecord (GTInt 0) (Some (pmeFlags event))) s.

(** A call that shows or focuses a window. *)
Definition is_window_call (c : Call) : Prop :=
  match c with
  | ui_showWindow _ | ui_setFocused _ => True
  | _ => False
  end.

(** Button messages of the sample session: record (95), loop (86), save (80),
    and a turn of the main encoder (60). *)
Definition record_press : Event := control_event 144 95 127.
Definition record_release : Event := control_event 144 95 0.
Definition loop_press : Event := control_event 144 86 127.
Definition loop_release : Event := control_event 144 86 0.
Definition save_press : Event := control_event 144 80 127.
Definition knob_turn_5 : Event := control_event 176 60 5.

(** [e'] is [e] with the handled marker set to [b] and nothing else changed. *)
Definition only_handled_set (b : bool) (e e' : Event) : Prop :=
  handled e' = b /\
  midiId e' = midiId e /\ status e' = status e /\ controlNum e' = controlNum e /\
  controlVal e' = controlVal e /\ pmeFlags e' = pmeFlags e.

(** The entries of [self._midi_command_dispatcher] for the transport and save
    buttons. *)
Definition sample_command_dispatcher : MidiEventDispatcher :=
  SetHandler 80 (reads OnGlobalSave) None
    (SetHandler 86 (reads OnTransportsLoop) None
       (SetHandler 95 (reads OnTransportsRecord) None
          (SetHandler 94 (reads OnTransportsPausePlay) None
             (SetHandler 93 (reads OnTransportsStop) None
                (mkDispatcher by_control_num ∅))))).

(** ** Further methods *)

Definition circular (low high x : Z) : Z :=
  if high <? x then low + (x - high - 1)
  else if x <? low then high - (low - x - 1)
  else x.

(** [channels.getTargetFxTrack] is a host query outside the host store; the
    method takes it as a parameter.  The loop returns at the first match. *)
Fixpoint _channel_with_route_to_mixer_track_loop (getTargetFxTrack : Z -> Z) (track : Z)
    (indices : list Z) : Z :=
  match indices with
  | [] => -1
  | i :: rest =>
      if getTargetFxTrack i =? track then i
      else _channel_with_route_to_mixer_track_loop getTargetFxTrack track rest
  end.

Definition _channel_with_route_to_mixer_track (getTargetFxTrack : Z -> Z) (track : Z)
    (s : St) : Z :=
  let max_channel := channelCount (host s) in
  _channel_with_route_to_mixer_track_loop getTargetFxTrack track (range 0 max_channel).

(** The generator of [_all_pattern_names], as the list of the values it still
    has to yield. *)
Definition _all_pattern_names (s : St) : list string :=
  map (fun i => _strip_pattern_name (getPatternName (host s) i))
    (range 1 (patternCount (host s) + 1)).

(** [x in it] on a generator: the test consumes the generator up to and
    including the first match, and all of it when there is none. *)
Fixpoint generator_contains (x : string) (it : list string) : bool * list string :=
  match it with
  | [] => (false, [])
  | y :: rest => if String.eqb y x then (true, rest) else generator_contains x rest
  end.

(** The [for] loop of [_next_pattern_name]; [None] when it runs to its end. *)
Fixpoint _next_pattern_name_loop (name : string) (indices : list Z)
    (pattern_names : list string) : option string :=
  match indices with
  | [] => None
  | i :: rest =>
      let suggested := (name ++ " #" ++ fmt_d i)%string in
      let '(found, pattern_names) := generator_contains suggested pattern_names in
      if negb found then Some suggested
      else _next_pattern_name_loop name rest pattern_names
  end.

Definition _next_pattern_name (s : St) : string :=
  let pattern_names := _all_pattern_names s in
  let selected := selectedChannel (host s) in
  let name := _strip_pattern_name (getChannelName (host s) selected) in
  let '(found, pattern_names) := generator_contains name pattern_names in
  if negb found then name
  else
    match _next_pattern_name_loop name (range 1 (patternCount (host s) + 1)) pattern_names with
    | Some suggested => suggested
    | None => (name ++ " - " ++ fmt_d (patternCount (host s) + 1))%string
    end.

Definition OnTrackRead (event : Event) (s : St) : St :=
  if negb (_pattern_mode_down s) then
    let prev := patternNumber (host s) - 1 in
    if prev <=? 0 then s
    else _jump_and_sync_select_pattern prev s
  else _change_playlist_track (-1) s.

Definition OnTrackWrite (event : Event) (s : St) : St :=
  if negb (_pattern_mode_down s) then
    let next := patternNumber (host s) + 1 in
    if patternCount (host s) <? next then s
    else _jump_and_sync_select_pattern next s
  else _change_playlist_track 1 s.

(** A host with two patterns, "A #1" and "A", and a selected channel "A". *)
Definition clash_host : Host :=
  mkHost 2 1
    (fun i => if i =? 1 then "A #1"%string else "A"%string)
    1 0 (fun _ => "A"%string)
    5 (fun _ => "Track"%string)
    (fun _ => false) (fun _ => false) 0 0.

(** A session whose host has no patterns, channels or playlist tracks. *)
Definition empty_host : Host :=
  mkHost 0 0 (fun _ => ""%string) 0 0 (fun _ => ""%string) 0 (fun _ => ""%string)
    (fun _ => false) (fun _ => false) 0 0.

Definition empty_session : St := init sample_globals_v20 empty_host.

(** A button transition broadcast to the other scripts. *)
Definition is_inter_script_message (c : Call) : Prop :=
  match c with
  | dispatch_message_to_other_scripts _ _ => True
  | _ => False
  end.

(** A jump, if the call is one, goes to a pattern called [name]. *)
Definition jumps_to_name (h : Host) (name : string) (c : Call) : Prop :=
  match c with
  | patterns_jumpToPattern j => _strip_pattern_name (getPatternName h j) = name
  | _ => True
  end.

(** The host's current pattern is called [name]. *)
Definition on_pattern_named (name : string) (s : St) : Prop :=
  _strip_pattern_name (getPatternName (host s) (patternNumber (host s))) = name.

(** [s'] is reached from [s] by calls that jump only to patterns called
    [name]; no pattern is renamed on the way. *)
Definition named_run (name : string) (s s' : St) : Prop :=
  exists l,
    calls s' = calls s ++ l /\
    Forall (jumps_to_name (host s) name) l /\
    getPatternName (host s') = getPatternName (host s) /\
    (on_pattern_named name s -> on_pattern_named name s').

Definition clash_session : St := init sample_globals_v20 clash_host.

(** ** Sequences of transport button messages *)

Inductive TransportButton := LoopButton | RecordButton | PlayButton | StopButton.

Definition transport_mask (b : TransportButton) : Z :=
  match b with
  | LoopButton => LOOP_BUTTON_MASK
  | RecordButton => REC_BUTTON_MASK
  | PlayButton => PLAY_BUTTON_MASK
  | StopButton => STOP_BUTTON_MASK
  end.

Definition transport_handler (b : TransportButton) : Event -> St -> St :=
  match b with
  | LoopButton => OnTransportsLoop
  | RecordButton => OnTransportsRecord
  | PlayButton => OnTransportsPausePlay
  | StopButton => OnTransportsStop
  end.

Definition TransportButton_eqb (a b : TransportButton) : bool :=
  match a, b with
  | LoopButton, LoopButton | RecordButton, RecordButton
  | PlayButton, PlayButton | StopButton, StopButton => true
  | _, _ => false
  end.

(** The handlers called for a sequence of button messages, first to last. *)
Fixpoint run_transport (messages : list (TransportButton * Event)) (s : St) : St :=
  match messages with
  | [] => s
  | (b, event) :: rest => run_transport rest (transport_handler b event s)
  end.

(** Which buttons are down after the sequence: a button is down when its
    last message was a press, and as it was before when it had none. *)
Fixpoint held_after (messages : list (TransportButton * Event))
    (held : TransportButton -> bool) : TransportButton -> bool :=
  match messages with
  | [] => held
  | (b, event) :: rest =>
      held_after rest
        (fun b' => if TransportButton_eqb b' b then _is_pressed event else held b')
  end.

(** * Properties *)

(** ** Delta decoder *)

(** C3: the knob delta decoder is the signed 7-bit convention: a control value
    in [0,63] decodes to itself, one in [65,127] to [64 - v], which is
    negative, and 64 decodes to 0. *)
Theorem get_knob_delta_signed_7bit (event : Event) :
  (0 <= controlVal event <= 63 -> _get_knob_delta event = controlVal event) /\
  (65 <= controlVal event <= 127 ->
     _get_knob_delta event = 64 - controlVal event /\ _get_knob_delta event < 0) /\
  (controlVal event = 64 -> _get_knob_delta event = 0).
Proof.
  unfold _get_knob_delta; cbv zeta.
  destruct (Z.ltb_spec (controlVal event) 64); repeat split; intros; lia.
Qed.

Lemma get_knob_delta_signed_7bit_witness :
  _get_knob_delta (mkEvent 176 176 60 5 0 false) = 5 /\
  _get_knob_delta (mkEvent 176 176 60 70 0 false) = -6 /\
  _get_knob_delta (mkEvent 176 176 60 64 0 false) = 0.
Proof.
  split; [| split].
  - apply (proj1 (get_knob_delta_signed_7bit (mkEvent 176 176 60 5 0 false))).
    simpl; lia.
  - apply (proj1 (proj2 (get_knob_delta_signed_7bit (mkEvent 176 176 60 70 0 false)))).
    simpl; lia.
  - apply (proj2 (proj2 (get_knob_delta_signed_7bit (mkEvent 176 176 60 64 0 false)))).
    reflexivity.
Defined.

(** ** Modifier masks *)

Lemma single_bit_spec (m : Z) :
  single_bit m = true <-> exists k : nat, m = 2 ^ Z.of_nat k.
Proof.
  unfold single_bit. rewrite andb_true_iff, Z.ltb_lt, Z.eqb_eq. split.
  - intros [Hpos Hm]. exists (Z.to_nat (Z.log2 m)).
    rewrite Z2Nat.id by apply Z.log2_nonneg. exact Hm.
  - intros [k ->]. split.
    + apply Z.pow_pos_nonneg; lia.
    + rewrite Z.log2_pow2 by lia. reflexivity.
Qed.

(** C6: the arrow masks are 0x16 and 0x32; neither is a power of two; 0x16
    shares bits with the record and play masks and 0x32 shares a bit with the
    record mask, so the six masks are not pairwise disjoint. *)
Theorem arrow_masks_not_single_bit :
  LEFT_BUTTON_MASK = 0x16 /\ RIGHT_BUTTON_MASK = 0x32 /\
  (forall k : nat, LEFT_BUTTON_MASK <> 2 ^ Z.of_nat k) /\
  (forall k : nat, RIGHT_BUTTON_MASK <> 2 ^ Z.of_nat k) /\
  Z.land LEFT_BUTTON_MASK REC_BUTTON_MASK = REC_BUTTON_MASK /\
  Z.land LEFT_BUTTON_MASK PLAY_BUTTON_MASK = PLAY_BUTTON_MASK /\
  Z.land RIGHT_BUTTON_MASK REC_BUTTON_MASK = REC_BUTTON_MASK /\
  pairwise_disjoint BUTTON_MASKS = false.
Proof.
  repeat split; try reflexivity.
  - intros k Hk.
    assert (H : single_bit LEFT_BUTTON_MASK = true) by (apply single_bit_spec; eauto).
    discriminate H.
  - intros k Hk.
    assert (H : single_bit RIGHT_BUTTON_MASK = true) by (apply single_bit_spec; eauto).
    discriminate H.
Qed.

(** ** Sliders *)

(** C8: for every slider event, below script version 8 a control value of 126
    or more is forwarded to the encoders as 127; from version 8 on the control
    value is forwarded unchanged. *)
Theorem slider_value_corrected_below_version_8 (event : Event) (s : St) :
  (SCRIPT_VERSION (globals s) < 8 -> 126 <= controlVal event ->
     calls (snd (OnSliderEvent event s)) =
       calls s ++ [encoders_ProcessSliderInput (status event - midiId event) 127]) /\
  (8 <= SCRIPT_VERSION (globals s) ->
     calls (snd (OnSliderEvent event s)) =
       calls s ++ [encoders_ProcessSliderInput (status event - midiId event)
                     (controlVal event)]).
Proof.
  unfold OnSliderEvent; cbn. split.
  - intros Hv Hval.
    destruct (Z.ltb_spec (SCRIPT_VERSION (globals s)) 8); [| lia].
    destruct (Z.leb_spec 126 (controlVal event)); [reflexivity | lia].
  - intros Hv.
    destruct (Z.ltb_spec (SCRIPT_VERSION (globals s)) 8); [lia | reflexivity].
Qed.

Lemma slider_value_corrected_below_version_8_witness :
  calls (snd (OnSliderEvent slider_event_126 sample_v7)) =
    calls sample_v7 ++ [encoders_ProcessSliderInput 2 127] /\
  calls (snd (OnSliderEvent slider_event_126 sample_v20)) =
    calls sample_v20 ++ [encoders_ProcessSliderInput 2 126].
Proof.
  split.
  - apply (proj1 (slider_value_corrected_below_version_8 slider_event_126 sample_v7));
      simpl; lia.
  - apply (proj2 (slider_value_corrected_below_version_8 slider_event_126 sample_v20));
      simpl; lia.
Defined.

(** ** Index arithmetic *)

Lemma clip_in_range (low high x : Z) : low <= high -> low <= clip low high x <= high.
Proof. unfold clip; lia. Qed.

Lemma range_bounds (a b : Z) : Forall (fun i => a <= i < b) (range a b).
Proof.
  unfold range. apply Forall_forall. intros i Hi.
  apply elem_of_seqZ in Hi. lia.
Qed.

Lemma host_apply_counts (c : Call) (h : Host) :
  patternCount (host_apply c h) = patternCount h /\
  trackCount (host_apply c h) = trackCount h /\
  channelCount (host_apply c h) = channelCount h.
Proof. destruct c; repeat split. Qed.

Lemma index_in_range_counts (h h' : Host) (c : Call) :
  patternCount h' = patternCount h -> trackCount h' = trackCount h ->
  channelCount h' = channelCount h ->
  index_in_range h c -> index_in_range h' c.
Proof. intros Hp Ht Hc. destruct c; simpl; rewrite ?Hp, ?Ht, ?Hc; auto. Qed.

Lemma in_range_run_refl (s : St) : in_range_run s s.
Proof. exists []. rewrite app_nil_r. repeat split; auto. Qed.

Lemma in_range_run_trans (s1 s2 s3 : St) :
  in_range_run s1 s2 -> in_range_run s2 s3 -> in_range_run s1 s3.
Proof.
  intros (l1 & E1 & F1 & P1 & T1 & C1) (l2 & E2 & F2 & P2 & T2 & C2).
  exists (l1 ++ l2). repeat split; try congruence.
  - rewrite E2, E1, app_assoc. reflexivity.
  - apply Forall_app; split; [exact F1 |].
    eapply Forall_impl; [exact F2 |]. intros c. cbv beta.
    apply index_in_range_counts; auto.
Qed.

Lemma in_range_run_emit (c : Call) (s : St) :
  index_in_range (host s) c -> in_range_run s (emit c s).
Proof.
  intros Hc. exists [c]. destruct (host_apply_counts c (host s)) as (P & T & C).
  repeat split; auto.
Qed.

Lemma in_range_run_same (s s' : St) :
  calls s' = calls s -> host s' = host s -> in_range_run s s'.
Proof.
  intros Hc Hh. exists []. rewrite app_nil_r, Hh. repeat split; auto.
Qed.

Lemma deselect_playlist_track_in_range (s : St) (i : Z) :
  1 <= i <= trackCount (host s) -> in_range_run s (_deselect_playlist_track s i).
Proof.
  intros Hi. unfold _deselect_playlist_track.
  destruct (String.prefix _ _).
  - apply in_range_run_emit. exact Hi.
  - apply in_range_run_refl.
Qed.

Lemma deselect_loop_in_range (l : list Z) : forall s : St,
  Forall (fun i => 1 <= i <= trackCount (host s)) l ->
  in_range_run s (fold_left _deselect_playlist_track l s).
Proof.
  induction l as [| i l IH]; intros s Hl; simpl.
  - apply in_range_run_refl.
  - inversion Hl as [| ? ? Hi Hrest]; subst.
    pose proof (deselect_playlist_track_in_range s i Hi) as Hstep.
    eapply in_range_run_trans; [exact Hstep |].
    apply IH. destruct Hstep as (_ & _ & _ & _ & T & _).
    rewrite T. exact Hrest.
Qed.

Lemma deselect_all_playlist_track_in_range (s : St) :
  in_range_run s (_deselect_all_playlist_track s).
Proof.
  unfold _deselect_all_playlist_track. apply deselect_loop_in_range.
  eapply Forall_impl; [apply range_bounds |]. cbv beta. intros; lia.
Qed.

Lemma select_pattern_named_loop_in_range (name : string) (l : list Z) (s : St) :
  Forall (fun i => 1 <= i <= patternCount (host s)) l ->
  in_range_run s (_select_pattern_named_loop name l s).
Proof.
  induction l as [| i l IH]; intros Hl; simpl.
  - apply in_range_run_refl.
  - inversion Hl as [| ? ? Hi Hrest]; subst.
    destruct (String.eqb _ _).
    + apply in_range_run_emit. exact Hi.
    + apply IH. exact Hrest.
Qed.

Lemma select_pattern_named_in_range (name : string) (s : St) :
  in_range_run s (_select_pattern_named name s).
Proof.
  unfold _select_pattern_named. apply select_pattern_named_loop_in_range.
  eapply Forall_impl; [apply range_bounds |]. cbv beta. intros; lia.
Qed.

Lemma select_playlist_track_in_range (track_index : Z) (s : St) :
  1 <= track_index <= trackCount (host s) ->
  in_range_run s (_select_playlist_track track_index s).
Proof.
  intros Hi. unfold _select_playlist_track. cbv zeta.
  set (s0 := set_current_playlist_track_index track_index s).
  assert (H0 : in_range_run s s0) by (apply in_range_run_same; reflexivity).
  destruct (String.prefix _ _); [exact H0 |].
  eapply in_range_run_trans; [exact H0 |].
  pose proof (deselect_all_playlist_track_in_range s0) as H1.
  eapply in_range_run_trans; [exact H1 |].
  pose proof (select_pattern_named_in_range (getTrackName (host s) track_index)
                (_deselect_all_playlist_track s0)) as H2.
  eapply in_range_run_trans; [exact H2 |].
  apply in_range_run_emit. cbn [index_in_range].
  destruct H1 as (_ & _ & _ & _ & T1 & _). destruct H2 as (_ & _ & _ & _ & T2 & _).
  rewrite T2, T1. exact Hi.
Qed.

Lemma select_playlist_track_named_loop_in_range (name : string) (l : list Z) (s : St) :
  Forall (fun i => 1 <= i <= trackCount (host s)) l ->
  in_range_run s (_select_playlist_track_named_loop name l s).
Proof.
  induction l as [| i l IH]; intros Hl; simpl.
  - apply in_range_run_refl.
  - inversion Hl as [| ? ? Hi Hrest]; subst.
    destruct (String.eqb _ _).
    + apply select_playlist_track_in_range. exact Hi.
    + apply IH. exact Hrest.
Qed.

Lemma select_playlist_track_named_in_range (name : string) (s : St) :
  in_range_run s (_select_playlist_track_named name s).
Proof.
  unfold _select_playlist_track_named.
  apply select_playlist_track_named_loop_in_range.
  eapply Forall_impl; [apply range_bounds |]. cbv beta. intros; lia.
Qed.

Lemma jump_and_sync_select_pattern_in_range (index : Z) (s : St) :
  1 <= index <= patternCount (host s) ->
  exists rest,
    calls (_jump_and_sync_select_pattern index s) =
      calls s ++ patterns_jumpToPattern index :: rest /\
    Forall (index_in_range (host s)) rest.
Proof.
  intros Hi. unfold _jump_and_sync_select_pattern. cbv zeta.
  set (s0 := emit (patterns_jumpToPattern index) s).
  destruct (select_playlist_track_named_in_range
              (_strip_pattern_name (getPatternName (host s0) index)) s0)
    as (rest & E & F & _).
  exists rest. split.
  - rewrite E. unfold s0. simpl. rewrite <- app_assoc. reflexivity.
  - eapply Forall_impl; [exact F |]. intros c. cbv beta.
    apply index_in_range_counts; reflexivity.
Qed.

Lemma select_playlist_track_sets_index (track_index : Z) (s : St) :
  _current_playlist_track_index (_select_playlist_track track_index s) = track_index.
Proof.
  unfold _select_playlist_track. cbv zeta.
  destruct (String.prefix _ _); [reflexivity |]. simpl.
  unfold _select_pattern_named.
  generalize (range 1 (patternCount
    (host (_deselect_all_playlist_track (set_current_playlist_track_index track_index s))) + 1)).
  assert (Hd : _current_playlist_track_index
            (_deselect_all_playlist_track (set_current_playlist_track_index track_index s))
          = track_index).
  { unfold _deselect_all_playlist_track.
    generalize (range 1 (trackCount (host (set_current_playlist_track_index track_index s)))).
    assert (Hs : _current_playlist_track_index
              (set_current_playlist_track_index track_index s) = track_index) by reflexivity.
    revert Hs. generalize (set_current_playlist_track_index track_index s).
    intros s0 Hs l. revert s0 Hs.
    induction l as [| i l IH]; intros s0 Hs; simpl; [exact Hs |].
    apply IH. unfold _deselect_playlist_track.
    destruct (String.prefix _ _); exact Hs. }
  revert Hd.
  generalize (_deselect_all_playlist_track (set_current_playlist_track_index track_index s)).
  intros s0 Hs l. induction l as [| i l IH]; simpl; [exact Hs |].
  destruct (String.eqb _ _); [exact Hs | exact IH].
Qed.

Lemma select_one_channel_calls (index : Z) (s : St) :
  exists l,
    calls (_select_one_channel index s) = calls s ++ l /\
    (In (channels_selectOneChannel index) l \/ In (channels_selectChannel index 1) l) /\
    (0 <= index <= channelCount (host s) - 1 -> Forall (index_in_range (host s)) l).
Proof.
  unfold _select_one_channel.
  destruct (8 <=? SCRIPT_VERSION (globals s)); cbn;
    destruct (ENABLE_CONTROLS_FL_HINTS (globals s)); cbn;
    rewrite <- ?app_assoc; cbn; eexists; (split; [reflexivity |]);
    (split; [cbn; auto |]); intros Hi;
    repeat first [apply Forall_nil_2 | apply Forall_cons_2; [cbn; auto |]].
Qed.

(** C7: index arithmetic clamps.  In a session whose host collections are
    nonempty, for every signed delta [OnUpdatePattern] jumps to a pattern
    index within [1, patternCount()], [OnUpdateChannel] selects a channel
    index within [0, channelCount()-1] and [OnUpdatePlaylistTrack] selects a
    playlist track within [1, trackCount()]; every other index these methods
    hand to the host is in range as well, and [clip low high x] lies in
    [low, high] whenever [low <= high]. *)
Theorem index_arithmetic_clamps (delta : Z) (s : St) :
  1 <= patternCount (host s) ->
  1 <= channelCount (host s) ->
  1 <= trackCount (host s) ->
  (exists index rest,
     1 <= index <= patternCount (host s) /\
     calls (OnUpdatePattern delta s) = calls s ++ patterns_jumpToPattern index :: rest /\
     Forall (index_in_range (host s)) rest) /\
  (exists index l,
     0 <= index <= channelCount (host s) - 1 /\
     calls (OnUpdateChannel delta s) = calls s ++ l /\
     (In (channels_selectOneChannel index) l \/ In (channels_selectChannel index 1) l) /\
     Forall (index_in_range (host s)) l) /\
  (exists track l,
     1 <= track <= trackCount (host s) /\
     _current_playlist_track_index (OnUpdatePlaylistTrack delta s) = track /\
     calls (OnUpdatePlaylistTrack delta s) = calls s ++ l /\
     Forall (index_in_range (host s)) l) /\
  (forall low high x, low <= high -> low <= clip low high x <= high).
Proof.
  intros Hp Hc Ht. repeat apply conj.
  - unfold OnUpdatePattern. cbv zeta.
    set (index := clip 1 (patternCount (host s)) (patternNumber (host s) + delta)).
    assert (Hi : 1 <= index <= patternCount (host s)) by (apply clip_in_range; lia).
    destruct (jump_and_sync_select_pattern_in_range index s Hi) as (rest & E & F).
    exists index, rest. auto.
  - unfold OnUpdateChannel. cbv zeta.
    set (index := clip 0 (channelCount (host s) - 1) (selectedChannel (host s) + delta)).
    assert (Hi : 0 <= index <= channelCount (host s) - 1) by (apply clip_in_range; lia).
    destruct (select_one_channel_calls index s) as (l & E & Hin & F).
    exists index, l. auto.
  - unfold OnUpdatePlaylistTrack. cbv zeta.
    set (track := Z.max 1 (Z.min (trackCount (host s))
                             (_current_playlist_track_index s + delta))).
    assert (Hi : 1 <= track <= trackCount (host s)) by (unfold track; lia).
    destruct (select_playlist_track_in_range track s Hi) as (l & E & F & _).
    exists track, l. repeat split; try lia; auto.
    apply select_playlist_track_sets_index.
  - apply clip_in_range.
Qed.

Lemma index_arithmetic_clamps_witness :
  exists index rest,
    1 <= index <= patternCount (host sample_v20) /\
    calls (OnUpdatePattern 100 sample_v20) =
      calls sample_v20 ++ patterns_jumpToPattern index :: rest /\
    Forall (index_in_range (host sample_v20)) rest.
Proof.
  assert (Hp : 1 <= patternCount (host sample_v20)) by (simpl; lia).
  assert (Hc : 1 <= channelCount (host sample_v20)) by (simpl; lia).
  assert (Ht : 1 <= trackCount (host sample_v20)) by (simpl; lia).
  exact (proj1 (index_arithmetic_clamps 100 sample_v20 Hp Hc Ht)).
Defined.

(** ** Long press detection *)

Lemma is_pressed_true (event : Event) : controlVal event <> 0 -> _is_pressed event = true.
Proof. unfold _is_pressed. intros H. destruct (Z.eqb_spec (controlVal event) 0); [lia | reflexivity]. Qed.

Lemma is_pressed_false (event : Event) : controlVal event = 0 -> _is_pressed event = false.
Proof. unfold _is_pressed. intros ->. reflexivity. Qed.

(** C1: for every event routed to [_detect_long_press], a press schedules the
    long-press callback with a delay of 450 ms and records the pending task
    under the event's control id, calling nothing else; a release calls the
    short-press callback exactly when a task is recorded for the control id
    and cancelling it succeeds, and calls neither callback otherwise. *)
Theorem detect_long_press_spec (event : Event) (short_fn : Event -> St -> St)
    (long_fn : LongPressFn) (s : St) :
  (controlVal event <> 0 ->
     let s' := _detect_long_press event short_fn long_fn s in
     let task := next_handle (scheduler s) in
     pending (scheduler s') !! task = Some (mkTask long_fn event 450) /\
     _long_press_tasks s' !! controlNum event = Some task /\
     _long_press_tasks s' = <[controlNum event := task]> (_long_press_tasks s) /\
     calls s' = calls s ++ [scheduler_ScheduleTask long_fn event 450]) /\
  (controlVal event = 0 ->
     (forall task,
        _long_press_tasks s !! controlNum event = Some task ->
        fst (CancelTask task (scheduler s)) = true ->
        _detect_long_press event short_fn long_fn s =
          short_fn event (snd (scheduler_cancel task s))) /\
     (forall task,
        _long_press_tasks s !! controlNum event = Some task ->
        fst (CancelTask task (scheduler s)) = false ->
        _detect_long_press event short_fn long_fn s = snd (scheduler_cancel task s) /\
        calls (_detect_long_press event short_fn long_fn s) =
          calls s ++ [scheduler_CancelTask task]) /\
     (_long_press_tasks s !! controlNum event = None ->
        _detect_long_press event short_fn long_fn s = s)).
Proof.
  split.
  - intros Hpress. unfold _detect_long_press.
    rewrite (is_pressed_true event Hpress). cbn.
    rewrite !lookup_insert_eq. auto.
  - intros Hrel. unfold _detect_long_press.
    rewrite (is_pressed_false event Hrel).
    split; [| split].
    + intros task Htask Hok. rewrite Htask.
      unfold scheduler_cancel.
      destruct (CancelTask task (scheduler s)) as [ok sch]. cbn in *. subst ok.
      reflexivity.
    + intros task Htask Hfail. rewrite Htask.
      unfold scheduler_cancel.
      destruct (CancelTask task (scheduler s)) as [ok sch]. cbn in *. subst ok.
      split; reflexivity.
    + intros Hnone. rewrite Hnone. reflexivity.
Qed.

Lemma detect_long_press_spec_witness :
  let press := control_event 144 81 127 in
  let release := control_event 144 81 0 in
  let s1 := _detect_long_press press sample_short_fn OnGlobalUndoLongPress sample_v7 in
  (pending (scheduler s1) !! next_handle (scheduler sample_v7)
     = Some (mkTask OnGlobalUndoLongPress press 450) /\
   _long_press_tasks s1 !! controlNum press = Some (next_handle (scheduler sample_v7))) /\
  _detect_long_press release sample_short_fn OnGlobalUndoLongPress s1 =
    sample_short_fn release (snd (scheduler_cancel 0%nat s1)) /\
  _detect_long_press release sample_short_fn OnGlobalUndoLongPress sample_v7 = sample_v7.
Proof.
  intros press release s1.
  assert (Hpress : controlVal press <> 0) by (simpl; lia).
  assert (Hrel : controlVal release = 0) by reflexivity.
  split; [| split].
  - destruct (proj1 (detect_long_press_spec press sample_short_fn OnGlobalUndoLongPress
                       sample_v7) Hpress) as (H1 & H2 & _).
    split; [exact H1 | exact H2].
  - apply (proj1 (proj2 (detect_long_press_spec release sample_short_fn
                           OnGlobalUndoLongPress s1) Hrel)); reflexivity.
  - apply (proj2 (proj2 (proj2 (detect_long_press_spec release sample_short_fn
                           OnGlobalUndoLongPress sample_v7) Hrel))); reflexivity.
Defined.

(** ** Transport buttons as modifiers *)

(** Asserting a mask sets all its bits; clearing it leaves none of them. *)
Lemma mask_asserted (mode mask : Z) : Z.land (Z.lor mode mask) mask = mask.
Proof.
  apply Z.bits_inj'. intros n Hn. rewrite Z.land_spec, Z.lor_spec.
  destruct (Z.testbit mode n), (Z.testbit mask n); reflexivity.
Qed.

Lemma mask_cleared (mode mask : Z) : Z.land (Z.land mode (Z.lnot mask)) mask = 0.
Proof.
  apply Z.bits_inj'. intros n Hn.
  rewrite !Z.land_spec, Z.lnot_spec, Z.bits_0 by exact Hn.
  destruct (Z.testbit mode n), (Z.testbit mask n); reflexivity.
Qed.

Lemma show_and_focus_calls (window : Window) (s : St) :
  exists l,
    calls (_show_and_focus window s) = calls s ++ l /\ Forall is_window_call l /\
    _button_mode (_show_and_focus window s) = _button_mode s.
Proof.
  unfold _show_and_focus.
  destruct (getVisible (host s) window); cbn [negb].
  - destruct (getFocused (host s) window); cbn [negb].
    + exists []. rewrite app_nil_r. auto.
    + exists [ui_setFocused window]. repeat split. repeat constructor.
  - destruct (getFocused (host (emit (ui_showWindow window) s)) window); cbn [negb].
    + exists [ui_showWindow window]. repeat split. repeat constructor.
    + exists [ui_showWindow window; ui_setFocused window]. cbn.
      rewrite <- app_assoc. repeat split. repeat constructor.
Qed.

(** C2, as the code has it: for each of the loop, record, play and stop
    buttons the press handler sets the button's mask in the modifier mask and
    resets the hold-action-committed flag; the release handler clears the
    mask and performs the button's default release action if and only if the
    flag is not set, where for the record button [transport.record()] is
    performed only if, in addition, no pad recording is in progress. *)
Theorem transport_button_press_release (event : Event) (s : St) :
  (controlVal event <> 0 ->
     (_button_mode (OnTransportsLoop event s) = Z.lor (_button_mode s) LOOP_BUTTON_MASK /\
      _button_hold_action_committed (OnTransportsLoop event s) = false) /\
     (_button_mode (OnTransportsRecord event s) = Z.lor (_button_mode s) REC_BUTTON_MASK /\
      _button_hold_action_committed (OnTransportsRecord event s) = false) /\
     (_button_mode (OnTransportsPausePlay event s) = Z.lor (_button_mode s) PLAY_BUTTON_MASK /\
      _button_hold_action_committed (OnTransportsPausePlay event s) = false) /\
     (_button_mode (OnTransportsStop event s) = Z.lor (_button_mode s) STOP_BUTTON_MASK /\
      _button_hold_action_committed (OnTransportsStop event s) = false)) /\
  (controlVal event = 0 ->
     (_button_mode (OnTransportsLoop event s)
        = Z.land (_button_mode s) (Z.lnot LOOP_BUTTON_MASK) /\
      calls (OnTransportsLoop event s) =
        calls s ++
        (if _button_hold_action_committed s then []
         else [transport_globalTransport FPT_LoopRecord (GTCmd FPT_LoopRecord)
                 (Some (pmeFlags event))])) /\
     (_button_mode (OnTransportsRecord event s)
        = Z.land (_button_mode s) (Z.lnot REC_BUTTON_MASK) /\
      calls (OnTransportsRecord event s) =
        calls s ++
        dispatch_message_to_other_scripts INTER_SCRIPT_DATA1_BTN_UP_CMD (controlNum event) ::
        (if _button_hold_action_committed s then []
         else if _is_pad_recording s then []
         else [transport_record])) /\
     (_button_mode (OnTransportsPausePlay event s)
        = Z.land (_button_mode s) (Z.lnot PLAY_BUTTON_MASK) /\
      if _button_hold_action_committed s
      then calls (OnTransportsPausePlay event s) = calls s
      else exists focus,
             Forall is_window_call focus /\
             calls (OnTransportsPausePlay event s) =
               calls s ++ focus ++
               [transport_globalTransport FPT_Play (GTCmd FPT_Play)
                  (Some (pmeFlags event))]) /\
     (_button_mode (OnTransportsStop event s)
        = Z.land (_button_mode s) (Z.lnot STOP_BUTTON_MASK) /\
      calls (OnTransportsStop event s) =
        calls s ++
        (if _button_hold_action_committed s then []
         else [metronome_Reset; transport_stop]) ++
        [dispatch_message_to_other_scripts INTER_SCRIPT_DATA1_BTN_UP_CMD
           (controlNum event)])).
Proof.
  split.
  - intros Hpress.
    unfold OnTransportsLoop, OnTransportsRecord, OnTransportsPausePlay, OnTransportsStop.
    rewrite (is_pressed_true event Hpress). cbn. auto 10.
  - intros Hrel.
    unfold OnTransportsLoop, OnTransportsRecord, OnTransportsPausePlay, OnTransportsStop.
    rewrite (is_pressed_false event Hrel). cbn.
    split; [| split; [| split]].
    + destruct (_button_hold_action_committed s); cbn; rewrite ?app_nil_r; auto.
    + destruct (_button_hold_action_committed s); cbn; [auto |].
      destruct (_is_pad_recording s); cbn; rewrite <- ?app_assoc; auto.
    + destruct (_button_hold_action_committed s) eqn:Hc; cbn.
      * destruct (_button_hold_action_committed s); auto.
      * set (s1 := set_button_mode _ s).
        assert (Hfocus : forall w, exists focus,
                   Forall is_window_call focus /\
                   calls (_show_and_focus w s1) = calls s ++ focus /\
                   _button_mode (_show_and_focus w s1) = _button_mode s1).
        { intros w. destruct (show_and_focus_calls w s1) as (l & E & F & M).
          exists l. auto. }
        destruct (ENABLE_PIANO_ROLL_FOCUS_DURING_RECORD_AND_PLAYBACK (globals s)).
        -- destruct (getLoopMode (host s) =? 1).
           ++ destruct (Hfocus widPlaylist) as (l & F & E & M).
              split; [exact M |]. exists l. split; [exact F |].
              rewrite E, <- app_assoc. reflexivity.
           ++ destruct (Hfocus widPianoRoll) as (l & F & E & M).
              split; [exact M |]. exists l. split; [exact F |].
              rewrite E, <- app_assoc. reflexivity.
        -- split; [reflexivity |]. exists []. split; [constructor | reflexivity].
    + destruct (_button_hold_action_committed s); cbn; rewrite <- ?app_assoc; auto.
Qed.

Lemma transport_button_press_release_witness :
  (_button_mode (OnTransportsLoop loop_press sample_v7) =
     Z.lor (_button_mode sample_v7) LOOP_BUTTON_MASK /\
   _button_hold_action_committed (OnTransportsLoop loop_press sample_v7) = false) /\
  calls (OnTransportsLoop loop_release (OnTransportsLoop loop_press sample_v7)) =
    calls (OnTransportsLoop loop_press sample_v7) ++
    (if _button_hold_action_committed (OnTransportsLoop loop_press sample_v7) then []
     else [transport_globalTransport FPT_LoopRecord (GTCmd FPT_LoopRecord)
             (Some (pmeFlags loop_release))]).
Proof.
  assert (Hpress : controlVal loop_press <> 0) by (simpl; lia).
  assert (Hrel : controlVal loop_release = 0) by reflexivity.
  split.
  - exact (proj1 (proj1 (transport_button_press_release loop_press sample_v7) Hpress)).
  - exact (proj2 (proj1 (proj2 (transport_button_press_release loop_release
                                  (OnTransportsLoop loop_press sample_v7)) Hrel))).
Defined.

(** Spec section 8: asserting the loop bit and releasing it with no turn in
    between leaves the mask empty and performs the loop action once. *)
Example loop_press_then_release :
  let s := OnTransportsLoop loop_release (OnTransportsLoop loop_press sample_v7) in
  _button_mode s = 0 /\
  calls s = [transport_globalTransport FPT_LoopRecord (GTCmd FPT_LoopRecord) (Some 0)].
Proof. split; reflexivity. Qed.

(** C2 as stated fails for the record button: with a pad recording in
    progress, a press and release of record with no hold action in between
    does not perform [transport.record()]. *)
Lemma record_release_skipped_while_pad_recording :
  let s0 := NotifyPadRecordingState true sample_v7 in
  let s1 := OnTransportsRecord record_press s0 in
  let s2 := OnTransportsRecord record_release s1 in
  _button_hold_action_committed s1 = false /\
  ~ In transport_record (calls s2).
Proof.
  split; [reflexivity |].
  cbn. intros [H | [H | []]]; discriminate H.
Qed.

(** ** Main encoder routing *)

(** C4, as the code has it: for every main-encoder turn event, when the
    pattern-mode (save) button is not held and no modifier bit is set, the
    decoded delta is forwarded to [self._navigation.UpdateValue], and the
    hold-action-committed flag and the mask are left as they were. *)
Theorem navigation_knob_default_route (event : Event) (s : St) :
  _pattern_mode_down s = false ->
  _button_mode s = 0 ->
  calls (OnNavigationKnobTurned event s) =
    calls s ++ [navigation_UpdateValue (_get_knob_delta event)] /\
  _button_hold_action_committed (OnNavigationKnobTurned event s) =
    _button_hold_action_committed s /\
  _button_mode (OnNavigationKnobTurned event s) = _button_mode s.
Proof.
  intros Hpm Hmode. unfold OnNavigationKnobTurned.
  rewrite Hpm, Hmode. cbn. rewrite Hmode. auto.
Qed.

Lemma navigation_knob_default_route_witness :
  calls (OnNavigationKnobTurned knob_turn_5 sample_v7) =
    calls sample_v7 ++ [navigation_UpdateValue (_get_knob_delta knob_turn_5)] /\
  _button_hold_action_committed (OnNavigationKnobTurned knob_turn_5 sample_v7) =
    _button_hold_action_committed sample_v7 /\
  _button_mode (OnNavigationKnobTurned knob_turn_5 sample_v7) = _button_mode sample_v7.
Proof.
  apply (navigation_knob_default_route knob_turn_5 sample_v7); reflexivity.
Defined.

(** C4 as stated fails while the save button is held: the mask is empty, yet
    the turn goes to the playlist-track selection and not to
    [UpdateValue]. *)
Lemma navigation_knob_pattern_mode_counterexample :
  let s := OnGlobalSave save_press sample_v7 in
  _button_mode s = 0 /\
  ~ In (navigation_UpdateValue (_get_knob_delta knob_turn_5))
       (calls (OnNavigationKnobTurned knob_turn_5 s)).
Proof.
  split; [reflexivity |].
  cbn. intros [H | [H | []]]; discriminate H.
Qed.

Ltac mask_cases s :=
  destruct (Z.eqb_spec (_button_mode s) LOOP_BUTTON_MASK);
  [| destruct (Z.eqb_spec (_button_mode s) REC_BUTTON_MASK);
     [| destruct (Z.eqb_spec (_button_mode s) PLAY_BUTTON_MASK);
        [| destruct (Z.eqb_spec (_button_mode s) STOP_BUTTON_MASK);
           [| destruct (Z.eqb_spec (_button_mode s) LEFT_BUTTON_MASK);
              [| destruct (Z.eqb_spec (_button_mode s) RIGHT_BUTTON_MASK)]]]]].

Ltac mask_absurd :=
  unfold LOOP_BUTTON_MASK, REC_BUTTON_MASK, PLAY_BUTTON_MASK, STOP_BUTTON_MASK,
    LEFT_BUTTON_MASK, RIGHT_BUTTON_MASK in *; lia.

Ltac in_new_calls :=
  repeat match goal with
         | H : In _ (_ :: _) |- _ => destruct H as [H | H]; [try discriminate H |]
         | H : In _ [] |- _ => destruct H
         end.

(** C5, as the code has it: while the pattern-mode (save) button is not held,
    a turn of the main encoder under a nonzero mask always sets the
    hold-action-committed flag; the commands of the loop, record, play and
    stop buttons are issued when the mask equals that button's constant and
    only then, and a mask equal to none of the six constants issues no
    command at all. *)
Theorem navigation_knob_remap_by_equality (event : Event) (s : St) :
  _pattern_mode_down s = false ->
  _button_mode s <> 0 ->
  let delta := _get_knob_delta event in
  let s' := OnNavigationKnobTurned event s in
  _button_hold_action_committed s' = true /\
  (_button_mode s = LOOP_BUTTON_MASK ->
     calls s' = calls s ++ [transport_globalTransport FPT_HZoomJog (GTInt delta) None;
                            transport_globalTransport FPT_Jog (GTInt 0) None]) /\
  (_button_mode s = REC_BUTTON_MASK -> calls s' = calls (_horizontal_scroll delta 0 s)) /\
  (_button_mode s = PLAY_BUTTON_MASK ->
     calls s' = calls s ++ [transport_globalTransport FPT_VZoomJog (GTInt delta) None]) /\
  (_button_mode s = STOP_BUTTON_MASK ->
     calls s' = calls s ++ [transport_globalTransport FPT_Jog2 (GTInt delta) None]) /\
  (~ In (_button_mode s) BUTTON_MASKS -> calls s' = calls s) /\
  (exists l,
     calls s' = calls s ++ l /\
     (forall v f, In (transport_globalTransport FPT_HZoomJog v f) l ->
        _button_mode s = LOOP_BUTTON_MASK) /\
     (forall d p, In (self_OnUpdateTimeMarker d p) l -> _button_mode s = REC_BUTTON_MASK) /\
     (forall v f, In (transport_globalTransport FPT_Jog v f) l ->
        _button_mode s = LOOP_BUTTON_MASK \/ _button_mode s = REC_BUTTON_MASK) /\
     (forall v f, In (transport_globalTransport FPT_VZoomJog v f) l ->
        _button_mode s = PLAY_BUTTON_MASK) /\
     (forall v f, In (transport_globalTransport FPT_Jog2 v f) l ->
        _button_mode s = STOP_BUTTON_MASK)).
Proof.
  intros Hpm Hmode delta s'. subst s'. unfold OnNavigationKnobTurned.
  rewrite Hpm. fold delta.
  destruct (Z.eqb_spec (_button_mode s) 0) as [H0 | _]; [contradiction |].
  cbn [negb]. unfold _horizontal_scroll, OnUpdateTimeMarker.
  mask_cases s;
    try (destruct (getFocused (host s) widPianoRoll);
         [| destruct (getFocused (host s) widPlaylist)]);
    cbn; rewrite <- ?app_assoc; cbn;
    (split; [reflexivity |]);
    (split; [intros; first [reflexivity | mask_absurd] |]);
    (split; [intros; first [reflexivity | mask_absurd] |]);
    (split; [intros; first [reflexivity | mask_absurd] |]);
    (split; [intros; first [reflexivity | mask_absurd] |]);
    (split; [intros Hn; first [reflexivity | exfalso; apply Hn; intuition congruence] |]);
    (eexists; split;
       [first [reflexivity | symmetry; apply app_nil_r] |]);
    repeat split; intros; in_new_calls; auto.
Qed.

Lemma navigation_knob_remap_by_equality_witness :
  let s := OnTransportsRecord record_press (OnTransportsLoop loop_press sample_v7) in
  _button_mode s = 3 /\
  _button_hold_action_committed (OnNavigationKnobTurned knob_turn_5 s) = true /\
  calls (OnNavigationKnobTurned knob_turn_5 s) = calls s.
Proof.
  intros s.
  assert (Hpm : _pattern_mode_down s = false) by reflexivity.
  assert (Hmode : _button_mode s <> 0) by (vm_compute; lia).
  assert (Hnone : ~ In (_button_mode s) BUTTON_MASKS).
  { vm_compute. intros [H | [H | [H | [H | [H | [H | []]]]]]]; discriminate H. }
  pose proof (navigation_knob_remap_by_equality knob_turn_5 s Hpm Hmode) as H.
  cbv zeta in H. destruct H as (Hc & _ & _ & _ & _ & Hn & _).
  split; [reflexivity |]. split; [exact Hc | exact (Hn Hnone)].
Defined.

(** C5 as stated fails while the save button is held: with loop and record
    both held the mask is 3, equal to none of the constants, and a turn of
    the encoder leaves the hold-action-committed flag unset. *)
Lemma navigation_knob_flag_unset_in_pattern_mode :
  let s := OnTransportsRecord record_press
             (OnTransportsLoop loop_press (OnGlobalSave save_press sample_v7)) in
  _button_mode s = 3 /\
  ~ In (_button_mode s) BUTTON_MASKS /\
  _button_hold_action_committed (OnNavigationKnobTurned knob_turn_5 s) = false.
Proof.
  split; [reflexivity |]. split; [| reflexivity].
  simpl. intros [H | [H | [H | [H | [H | [H | []]]]]]]; discriminate H.
Qed.

(** ** Class handlers and the handled marker *)

Lemma read_only_table_empty (f : Event -> Z) : read_only_table (mkDispatcher f ∅).
Proof. intros k cb g H. cbn in H. rewrite lookup_empty in H. discriminate H. Qed.

Lemma read_only_table_SetHandler (key : Z) (m : Event -> St -> St)
    (filter_fn : option Guard) (d : MidiEventDispatcher) :
  read_only_table d -> read_only_table (SetHandler key (reads m) filter_fn d).
Proof.
  intros Hd k cb g H. unfold SetHandler in H. cbn in H.
  destruct (decide (key = k)) as [-> | Hne].
  - rewrite lookup_insert_eq in H. inversion H. eauto.
  - rewrite lookup_insert_ne in H by exact Hne. eapply Hd. exact H.
Qed.

Lemma read_only_table_SetHandlerForKeys (keys : list Z) (m : Event -> St -> St)
    (filter_fn : option Guard) : forall d : MidiEventDispatcher,
  read_only_table d -> read_only_table (SetHandlerForKeys keys (reads m) filter_fn d).
Proof.
  unfold SetHandlerForKeys. induction keys as [| k keys IH]; intros d Hd; simpl.
  - exact Hd.
  - apply IH. apply read_only_table_SetHandler. exact Hd.
Qed.

Lemma knob_dispatcher_read_only : read_only_table _knob_dispatcher.
Proof.
  unfold _knob_dispatcher. apply read_only_table_SetHandler.
  apply read_only_table_SetHandlerForKeys. apply read_only_table_empty.
Qed.

Lemma Dispatch_read_only (d : MidiEventDispatcher) (event : Event) (s : St) :
  read_only_table d -> snd (fst (Dispatch d event s)) = event.
Proof.
  intros Hd. unfold Dispatch.
  destruct (dispatch_map d !! transform_fn d event) as [[cb g] |] eqn:E; [| reflexivity].
  destruct (Hd _ _ _ E) as (m & ->).
  destruct (g event); reflexivity.
Qed.

Lemma Dispatch_no_entry (d : MidiEventDispatcher) (event : Event) (s : St) :
  dispatch_map d !! transform_fn d event = None ->
  Dispatch d event s = (false, event, s).
Proof. intros E. unfold Dispatch. rewrite E. reflexivity. Qed.

Lemma SetHandlerForKeys_lookup_other (keys : list Z) (cb : Handler)
    (filter_fn : option Guard) (k : Z) : forall d : MidiEventDispatcher,
  ~ In k keys ->
  dispatch_map (SetHandlerForKeys keys cb filter_fn d) !! k = dispatch_map d !! k.
Proof.
  unfold SetHandlerForKeys. induction keys as [| k' keys IH]; intros d Hk; simpl.
  - reflexivity.
  - rewrite IH by (intros Hin; apply Hk; right; exact Hin).
    unfold SetHandler. cbn. apply lookup_insert_ne.
    intros ->. apply Hk. left. reflexivity.
Qed.

(** The knob table has entries for the controls 16..24 and 60 only. *)
Lemma knob_dispatcher_no_entry (k : Z) :
  ~ 16 <= k <= 24 -> k <> 60 -> dispatch_map _knob_dispatcher !! k = None.
Proof.
  intros Hpan Hnav. unfold _knob_dispatcher.
  unfold SetHandler at 1. cbn [dispatch_map].
  rewrite lookup_insert_ne by congruence.
  rewrite SetHandlerForKeys_lookup_other.
  - apply lookup_empty.
  - intros Hin. apply list_elem_of_In in Hin.
    pose proof (proj1 (Forall_forall _ _) (range_bounds 16 25) k Hin). cbv beta in H. lia.
Qed.

(** C9: for every knob and slider event the class handlers [OnKnobEvent] and
    [OnSliderEvent] set the event's handled marker to False before
    dispatching, also when no control-number handler matches, and change no
    other field of the event; [OnCommandEvent] leaves the event, and with it
    the handled marker, as it was.  The command table is any table whose
    callbacks only read their event, as the methods of this class do. *)
Theorem class_handlers_handled_marker (_midi_command_dispatcher : MidiEventDispatcher)
    (event : Event) (s : St) :
  read_only_table _midi_command_dispatcher ->
  only_handled_set false event (fst (OnKnobEvent event s)) /\
  OnKnobEvent event s =
    (let '(_, event', s') := Dispatch _knob_dispatcher (set_handled false event) s in
     (event', s')) /\
  (~ 16 <= controlNum event <= 24 -> controlNum event <> 60 ->
     OnKnobEvent event s = (set_handled false event, s)) /\
  only_handled_set false event (fst (OnSliderEvent event s)) /\
  fst (OnCommandEvent _midi_command_dispatcher event s) = event.
Proof.
  intros Hcmd. split; [| split; [| split; [| split]]].
  - unfold OnKnobEvent.
    pose proof (Dispatch_read_only _knob_dispatcher (set_handled false event) s
                  knob_dispatcher_read_only) as H.
    destruct (Dispatch _knob_dispatcher (set_handled false event) s) as [[b e'] s'].
    cbn in *. subst e'. repeat split.
  - reflexivity.
  - intros Hpan Hnav. unfold OnKnobEvent.
    rewrite Dispatch_no_entry; [reflexivity |].
    apply knob_dispatcher_no_entry; assumption.
  - unfold OnSliderEvent. cbn. repeat split.
  - unfold OnCommandEvent.
    pose proof (Dispatch_read_only _midi_command_dispatcher event s Hcmd) as H.
    destruct (Dispatch _midi_command_dispatcher event s) as [[b e'] s'].
    cbn in *. exact H.
Qed.

Lemma sample_command_dispatcher_read_only : read_only_table sample_command_dispatcher.
Proof.
  unfold sample_command_dispatcher.
  repeat apply read_only_table_SetHandler. apply read_only_table_empty.
Qed.

Lemma class_handlers_handled_marker_witness :
  only_handled_set false knob_turn_5 (fst (OnKnobEvent knob_turn_5 sample_v7)) /\
  only_handled_set false slider_event_126 (fst (OnSliderEvent slider_event_126 sample_v7)) /\
  fst (OnCommandEvent sample_command_dispatcher loop_press sample_v7) = loop_press.
Proof.
  pose proof (class_handlers_handled_marker sample_command_dispatcher knob_turn_5
                sample_v7 sample_command_dispatcher_read_only) as (Hk & _).
  pose proof (class_handlers_handled_marker sample_command_dispatcher slider_event_126
                sample_v7 sample_command_dispatcher_read_only) as (_ & _ & _ & Hs & _).
  pose proof (class_handlers_handled_marker sample_command_dispatcher loop_press
                sample_v7 sample_command_dispatcher_read_only) as (_ & _ & _ & _ & Hc).
  exact (conj Hk (conj Hs Hc)).
Defined.

(** ** Hint overlay *)

(** C10, as the code has it: every call to [_display_hint] substitutes a
    single space for each omitted line and hands a supplied line on as it is,
    so both hint lines are non-empty whenever no supplied line is empty; it
    activates the page named 'hint' with an expiry of exactly 1500 ms; a later
    call overwrites the pending hint's lines and restarts the expiry. *)
Theorem display_hint_spec (line1 line2 : option string) (s : St) :
  let l1 := default " "%string line1 in
  let l2 := default " "%string line2 in
  let s' := _display_hint line1 line2 s in
  calls s' =
    calls s ++ [display_SetPageLines "hint" l1 l2;
                display_SetActivePage "hint" (Some 1500)] /\
  (line1 <> Some ""%string -> line2 <> Some ""%string ->
     l1 <> ""%string /\ l2 <> ""%string) /\
  page_lines (display s') !! "hint"%string = Some (l1, l2) /\
  transient_page (display s') = Some ("hint"%string, time_ms (host s) + 1500) /\
  shown_page (time_ms (host s)) (display s') = Some "hint"%string /\
  (forall (dt : Z) (line1' line2' : option string),
     let s'' := _display_hint line1' line2' (advance_clock dt s') in
     page_lines (display s'') !! "hint"%string =
       Some (default " "%string line1', default " "%string line2') /\
     transient_page (display s'') =
       Some ("hint"%string, time_ms (host s) + dt + 1500)).
Proof.
  intros l1 l2 s'. subst l1 l2 s'. unfold _display_hint. cbn.
  repeat split.
  - rewrite <- app_assoc. destruct line1, line2; reflexivity.
  - destruct line1 as [l |]; cbn; [congruence | discriminate].
  - destruct line2 as [l |]; cbn; [congruence | discriminate].
  - rewrite lookup_insert_eq. destruct line1, line2; reflexivity.
  - destruct (Z.ltb_spec (time_ms (host s)) (time_ms (host s) + 1500)); [reflexivity | lia].
  - rewrite lookup_insert_eq. destruct line1', line2'; reflexivity.
Qed.

Lemma display_hint_spec_witness :
  default " "%string (Some "Unassigned"%string) <> ""%string /\
  default " "%string (None : option string) <> ""%string.
Proof.
  assert (H1 : Some "Unassigned"%string <> Some ""%string) by discriminate.
  assert (H2 : (None : option string) <> Some ""%string) by discriminate.
  pose proof (display_hint_spec (Some "Unassigned"%string) None sample_v7) as H.
  cbv zeta in H. destruct H as (_ & Hne & _).
  exact (Hne H1 H2).
Defined.

(** C10 as stated fails for a supplied empty line: only an omitted line is
    replaced, so the first hint line stays empty. *)
Lemma display_hint_empty_line_counterexample :
  calls (_display_hint (Some ""%string) None sample_v7) =
    [display_SetPageLines "hint" "" " "; display_SetActivePage "hint" (Some 1500)] /\
  page_lines (display (_display_hint (Some ""%string) None sample_v7)) !! "hint"%string =
    Some (""%string, " "%string).
Proof. split; reflexivity. Qed.

(** ** The sample session, end to end *)

(** A press of undo followed by two releases: the first release cancels the
    pending task and runs the short-press callback, the second finds the task
    gone and runs nothing. *)
Example undo_press_release_release :
  let press := control_event 144 81 127 in
  let release := control_event 144 81 0 in
  let s1 := _detect_long_press press sample_short_fn OnGlobalUndoLongPress sample_v7 in
  let s2 := _detect_long_press release sample_short_fn OnGlobalUndoLongPress s1 in
  let s3 := _detect_long_press release sample_short_fn OnGlobalUndoLongPress s2 in
  calls s2 =
    [scheduler_ScheduleTask OnGlobalUndoLongPress press 450;
     scheduler_CancelTask 0;
     transport_globalTransport FPT_LoopRecord (GTInt 0) (Some 0)] /\
  calls s3 = calls s2 ++ [scheduler_CancelTask 0].
Proof. split; reflexivity. Qed.

(** A knob message for a control without a handler still leaves the event
    with its handled marker cleared, and calls nothing. *)
Example unmapped_knob_event :
  ProcessEvent sample_command_dispatcher (control_event 176 61 5) sample_v7 =
    (true, set_handled false (control_event 176 61 5), sample_v7).
Proof. reflexivity. Qed.

(** The slider scenario of the spec: value 126 on a host older than version 8
    reaches the encoders as 127. *)
Example slider_126_before_version_8 :
  calls (snd (ProcessEvent sample_command_dispatcher slider_event_126 sample_v7)) =
    [encoders_ProcessSliderInput 2 127].
Proof. reflexivity. Qed.

(** With only record held, the mask already has a bit in common with 0x32,
    which is the test [OnNavigationLeft] makes for a held right arrow. *)
Example record_bit_inside_right_mask :
  Z.land (_button_mode (OnTransportsRecord record_press sample_v7)) RIGHT_BUTTON_MASK
    = REC_BUTTON_MASK.
Proof. reflexivity. Qed.

(** * Further properties *)

(** ** The pattern marker *)

Lemma substring_all (s : string) : String.substring 0 (String.length s) s = s.
Proof. induction s as [| a s IH]; simpl; [reflexivity | rewrite IH; reflexivity]. Qed.

(** X1: [_strip_pattern_name] undoes the marker that [_select_playlist_track]
    puts in front of a track name, and it removes at most one marker: its
    result is the name itself, or the name without its leading "* ". *)
Theorem strip_pattern_name_marker (name : string) :
  _strip_pattern_name ("* " ++ name) = name /\
  (_strip_pattern_name name = name \/ name = ("* " ++ _strip_pattern_name name)%string).
Proof.
  split.
  - unfold _strip_pattern_name, drop2.
    unfold String.append; fold String.append. cbn.
    replace (String.prefix "" name) with true by (destruct name; reflexivity).
    rewrite Nat.sub_0_r. apply substring_all.
  - unfold _strip_pattern_name.
    destruct (String.prefix "* " name) eqn:E; [right | left; reflexivity].
    apply String.prefix_correct in E.
    destruct name as [| a [| b rest]]; simpl in E; try discriminate E.
    injection E as Ha Hb _. subst a b. unfold drop2. simpl.
    rewrite Nat.sub_0_r, substring_all. reflexivity.
Qed.

(** ** Wrapping and clamping *)

(** X2: on a nonempty range [circular] is the identity inside the range, and
    a value up to one range length above or below it is wrapped to the other
    end and lands inside the range. *)
Theorem circular_wraps_into_range (low high x : Z) :
  low <= high ->
  low - (high - low + 1) <= x <= high + (high - low + 1) ->
  low <= circular low high x <= high /\
  (low <= x <= high -> circular low high x = x) /\
  (high < x -> circular low high x = x - (high - low + 1)) /\
  (x < low -> circular low high x = x + (high - low + 1)).
Proof.
  intros Hr Hx. unfold circular.
  destruct (Z.ltb_spec high x); [| destruct (Z.ltb_spec x low)]; repeat split; lia.
Qed.

Lemma circular_wraps_into_range_witness :
  circular 0 125 130 = 130 - (125 - 0 + 1) /\ 0 <= circular 0 125 (-3) <= 125.
Proof.
  assert (Hr : 0 <= 125) by lia.
  split.
  - assert (Hx : 0 - (125 - 0 + 1) <= 130 <= 125 + (125 - 0 + 1)) by lia.
    apply (proj1 (proj2 (proj2 (circular_wraps_into_range 0 125 130 Hr Hx)))). lia.
  - assert (Hx : 0 - (125 - 0 + 1) <= -3 <= 125 + (125 - 0 + 1)) by lia.
    exact (proj1 (circular_wraps_into_range 0 125 (-3) Hr Hx)).
Defined.

(** X3: [circular] wraps only once: a value more than one range length
    outside the range is still outside it after the call. *)
Theorem circular_wraps_only_once (low high x : Z) :
  low <= high ->
  (high + (high - low + 1) < x -> high < circular low high x) /\
  (x < low - (high - low + 1) -> circular low high x < low).
Proof.
  intros Hr. unfold circular.
  destruct (Z.ltb_spec high x); [| destruct (Z.ltb_spec x low)]; split; lia.
Qed.

Lemma circular_wraps_only_once_witness : 5 < circular 0 5 20.
Proof.
  assert (Hr : 0 <= 5) by lia.
  apply (proj1 (circular_wraps_only_once 0 5 20 Hr)). lia.
Defined.

(** X4: on an empty host collection the clamp has no range to land in and
    returns its lower bound: whatever the delta, [OnUpdatePattern] jumps to
    pattern 1, [OnUpdateChannel] selects channel 0 and
    [OnUpdatePlaylistTrack] selects track 1. *)
Theorem update_on_empty_collection (delta : Z) (s : St) :
  (patternCount (host s) <= 0 ->
     exists rest,
       calls (OnUpdatePattern delta s) = calls s ++ patterns_jumpToPattern 1 :: rest) /\
  (channelCount (host s) <= 0 ->
     exists l,
       calls (OnUpdateChannel delta s) = calls s ++ l /\
       (In (channels_selectOneChannel 0) l \/ In (channels_selectChannel 0 1) l)) /\
  (trackCount (host s) <= 0 ->
     _current_playlist_track_index (OnUpdatePlaylistTrack delta s) = 1).
Proof.
  split; [| split].
  - intros Hp. unfold OnUpdatePattern. cbv zeta.
    replace (clip 1 (patternCount (host s)) (patternNumber (host s) + delta)) with 1
      by (unfold clip; lia).
    unfold _jump_and_sync_select_pattern. cbv zeta.
    set (s0 := emit (patterns_jumpToPattern 1) s).
    destruct (select_playlist_track_named_in_range
                (_strip_pattern_name (getPatternName (host s0) 1)) s0) as (rest & E & _).
    exists rest. rewrite E. unfold s0. simpl. rewrite <- app_assoc. reflexivity.
  - intros Hc. unfold OnUpdateChannel. cbv zeta.
    replace (clip 0 (channelCount (host s) - 1) (selectedChannel (host s) + delta)) with 0
      by (unfold clip; lia).
    destruct (select_one_channel_calls 0 s) as (l & E & Hin & _).
    exists l. auto.
  - intros Ht. unfold OnUpdatePlaylistTrack. cbv zeta.
    rewrite select_playlist_track_sets_index. lia.
Qed.

Lemma update_on_empty_collection_witness :
  (exists rest,
     calls (OnUpdatePattern 7 empty_session) =
       calls empty_session ++ patterns_jumpToPattern 1 :: rest) /\
  _current_playlist_track_index (OnUpdatePlaylistTrack (-4) empty_session) = 1.
Proof.
  assert (Hp : patternCount (host empty_session) <= 0) by (simpl; lia).
  assert (Ht : trackCount (host empty_session) <= 0) by (simpl; lia).
  split.
  - exact (proj1 (update_on_empty_collection 7 empty_session) Hp).
  - exact (proj2 (proj2 (update_on_empty_collection (-4) empty_session)) Ht).
Defined.

(** X5: for a 7-bit control value the decoded knob delta lies in [-63, 63],
    and two 7-bit values decode to the same delta only if they are equal or
    are the two encodings 0 and 64 of "no turn". *)
Theorem get_knob_delta_range (e1 e2 : Event) :
  0 <= controlVal e1 <= 127 ->
  0 <= controlVal e2 <= 127 ->
  -63 <= _get_knob_delta e1 <= 63 /\
  (_get_knob_delta e1 = _get_knob_delta e2 ->
     controlVal e1 = controlVal e2 \/
     (_get_knob_delta e1 = 0 /\
      (controlVal e1 = 0 \/ controlVal e1 = 64) /\
      (controlVal e2 = 0 \/ controlVal e2 = 64))).
Proof.
  intros H1 H2. unfold _get_knob_delta. cbv zeta.
  destruct (Z.ltb_spec (controlVal e1) 64), (Z.ltb_spec (controlVal e2) 64);
    split; try lia; intros Heq; lia.
Qed.

Lemma get_knob_delta_range_witness :
  -63 <= _get_knob_delta (control_event 176 60 127) <= 63.
Proof.
  assert (H : 0 <= controlVal (control_event 176 60 127) <= 127) by (simpl; lia).
  exact (proj1 (get_knob_delta_range _ _ H H)).
Defined.

(** ** The modifier mask as a state machine *)

Lemma lor_keeps_disjoint_mask (mode mask other : Z) :
  Z.land mask other = 0 -> Z.land (Z.lor mode mask) other = Z.land mode other.
Proof.
  intros Hd. apply Z.bits_inj'. intros n Hn.
  assert (Hb : Z.testbit (Z.land mask other) n = false) by (rewrite Hd; apply Z.bits_0).
  rewrite Z.land_spec in Hb. rewrite !Z.land_spec, Z.lor_spec.
  destruct (Z.testbit mode n), (Z.testbit mask n), (Z.testbit other n);
    simpl in *; congruence.
Qed.

Lemma clear_keeps_disjoint_mask (mode mask other : Z) :
  Z.land mask other = 0 -> Z.land (Z.land mode (Z.lnot mask)) other = Z.land mode other.
Proof.
  intros Hd. apply Z.bits_inj'. intros n Hn.
  assert (Hb : Z.testbit (Z.land mask other) n = false) by (rewrite Hd; apply Z.bits_0).
  rewrite Z.land_spec in Hb. rewrite !Z.land_spec, Z.lnot_spec by exact Hn.
  destruct (Z.testbit mode n), (Z.testbit mask n), (Z.testbit other n);
    simpl in *; congruence.
Qed.

Lemma show_and_focus_self (window : Window) (s : St) :
  _button_mode (_show_and_focus window s) = _button_mode s /\
  _button_hold_action_committed (_show_and_focus window s) = _button_hold_action_committed s.
Proof.
  unfold _show_and_focus.
  destruct (getVisible (host s) window); cbn [negb].
  - destruct (getFocused (host s) window); split; reflexivity.
  - destruct (getFocused (host (emit (ui_showWindow window) s)) window); split; reflexivity.
Qed.

(** The mask a transport handler leaves: its own mask asserted on a press and
    cleared on a release. *)
Lemma transport_handler_mode (event : Event) (s : St) :
  let next (mask : Z) :=
    if _is_pressed event then Z.lor (_button_mode s) mask
    else Z.land (_button_mode s) (Z.lnot mask) in
  _button_mode (OnTransportsLoop event s) = next LOOP_BUTTON_MASK /\
  _button_mode (OnTransportsRecord event s) = next REC_BUTTON_MASK /\
  _button_mode (OnTransportsPausePlay event s) = next PLAY_BUTTON_MASK /\
  _button_mode (OnTransportsStop event s) = next STOP_BUTTON_MASK.
Proof.
  cbv zeta.
  unfold OnTransportsLoop, OnTransportsRecord, OnTransportsPausePlay, OnTransportsStop.
  destruct (_is_pressed event); cbn.
  - auto.
  - repeat split.
    + destruct (_button_hold_action_committed s); reflexivity.
    + destruct (_button_hold_action_committed s); [reflexivity |].
      destruct (_is_pad_recording s); reflexivity.
    + destruct (_button_hold_action_committed s); [reflexivity |].
      destruct (ENABLE_PIANO_ROLL_FOCUS_DURING_RECORD_AND_PLAYBACK (globals s));
        [| reflexivity].
      destruct (getLoopMode (host s) =? 1); cbn;
        rewrite (proj1 (show_and_focus_self _ _)); reflexivity.
    + destruct (_button_hold_action_committed s); reflexivity.
Qed.

(** X6: the loop, record, play and stop handlers never disturb each other's
    bit: whatever the event, a press or a release of one of these buttons
    leaves the bits of the other three masks as they were. *)
Theorem transport_bits_independent (event : Event) (s : St) :
  (forall other, In other [REC_BUTTON_MASK; PLAY_BUTTON_MASK; STOP_BUTTON_MASK] ->
     Z.land (_button_mode (OnTransportsLoop event s)) other = Z.land (_button_mode s) other) /\
  (forall other, In other [LOOP_BUTTON_MASK; PLAY_BUTTON_MASK; STOP_BUTTON_MASK] ->
     Z.land (_button_mode (OnTransportsRecord event s)) other
       = Z.land (_button_mode s) other) /\
  (forall other, In other [LOOP_BUTTON_MASK; REC_BUTTON_MASK; STOP_BUTTON_MASK] ->
     Z.land (_button_mode (OnTransportsPausePlay event s)) other
       = Z.land (_button_mode s) other) /\
  (forall other, In other [LOOP_BUTTON_MASK; REC_BUTTON_MASK; PLAY_BUTTON_MASK] ->
     Z.land (_button_mode (OnTransportsStop event s)) other = Z.land (_button_mode s) other).
Proof.
  destruct (transport_handler_mode event s) as (Hl & Hr & Hp & Hs). cbv zeta in *.
  rewrite Hl, Hr, Hp, Hs.
  repeat split; intros other [<- | [<- | [<- | []]]];
    destruct (_is_pressed event);
    first [apply lor_keeps_disjoint_mask | apply clear_keeps_disjoint_mask]; reflexivity.
Qed.

(** The arrow masks do not have this property: clearing 0x16 also clears the
    record and play bits. *)
Example left_mask_clears_record_and_play :
  Z.land (Z.lor REC_BUTTON_MASK PLAY_BUTTON_MASK) (Z.lnot LEFT_BUTTON_MASK) = 0.
Proof. reflexivity. Qed.

(** ** Hold actions *)

Lemma navigation_knob_turn_commits (event : Event) (s : St) :
  _pattern_mode_down s = false -> _button_mode s <> 0 ->
  _button_hold_action_committed (OnNavigationKnobTurned event s) = true.
Proof.
  intros Hpm Hmode. unfold OnNavigationKnobTurned. rewrite Hpm.
  destruct (Z.eqb_spec (_button_mode s) 0); [contradiction | reflexivity].
Qed.

Lemma pan_knob_turn_commits (event : Event) (s : St) :
  _button_hold_action_committed (OnPanKnobTurned event s) = true.
Proof.
  unfold OnPanKnobTurned, _horizontal_scroll, OnUpdateTimeMarker. cbn.
  repeat match goal with
         | |- context [if ?b then _ else _] => destruct b
         end; reflexivity.
Qed.

Lemma transport_press_self (event : Event) (s : St) :
  controlVal event <> 0 ->
  forall button,
    In button [OnTransportsLoop; OnTransportsPausePlay; OnTransportsRecord;
               OnTransportsStop] ->
    _pattern_mode_down (button event s) = _pattern_mode_down s /\
    _button_mode (button event s) <> 0.
Proof.
  intros Hpress button Hin.
  assert (Hnz : forall mask, mask <> 0 -> Z.lor (_button_mode s) mask <> 0).
  { intros mask Hm H0. apply Hm. rewrite <- (mask_asserted (_button_mode s) mask), H0.
    reflexivity. }
  destruct (transport_handler_mode event s) as (Hl & Hr & Hp & Hs). cbv zeta in *.
  rewrite (is_pressed_true event Hpress) in *.
  destruct Hin as [<- | [<- | [<- | [<- | []]]]];
    (split;
     [ unfold OnTransportsLoop, OnTransportsRecord, OnTransportsPausePlay,
         OnTransportsStop;
       rewrite (is_pressed_true event Hpress); reflexivity
     | rewrite ?Hl, ?Hr, ?Hp, ?Hs; apply Hnz; discriminate ]).
Qed.

Lemma transport_release_when_committed (event : Event) (s : St) :
  controlVal event = 0 -> _button_hold_action_committed s = true ->
  forall button,
    In button [OnTransportsLoop; OnTransportsPausePlay; OnTransportsRecord;
               OnTransportsStop] ->
    exists tail,
      calls (button event s) = calls s ++ tail /\ Forall is_inter_script_message tail.
Proof.
  intros Hrel Hc button Hin.
  destruct Hin as [<- | [<- | [<- | [<- | []]]]];
    unfold OnTransportsLoop, OnTransportsRecord, OnTransportsPausePlay, OnTransportsStop;
    rewrite (is_pressed_false event Hrel); cbn; rewrite Hc; cbn.
  - exists []. rewrite app_nil_r. split; [reflexivity | constructor].
  - exists []. rewrite app_nil_r. split; [reflexivity | constructor].
  - eexists. split; [reflexivity |]. repeat constructor.
  - eexists. split; [reflexivity |]. repeat constructor.
Qed.

(** X7: a knob turn while a transport button is held suppresses the button's
    release action.  After a press of loop, play, record or stop, a turn of
    the main encoder (with the save button up) or of a pan knob commits the
    hold action, and the release then calls nothing except the broadcast to
    the other scripts that record and stop always make. *)
Theorem knob_turn_suppresses_release_action (press release turn : Event) (s : St) :
  controlVal press <> 0 ->
  controlVal release = 0 ->
  _pattern_mode_down s = false ->
  forall button knob,
    In button [OnTransportsLoop; OnTransportsPausePlay; OnTransportsRecord;
               OnTransportsStop] ->
    In knob [OnNavigationKnobTurned; OnPanKnobTurned] ->
    let held := knob turn (button press s) in
    _button_hold_action_committed held = true /\
    exists tail,
      calls (button release held) = calls held ++ tail /\
      Forall is_inter_script_message tail.
Proof.
  intros Hpress Hrel Hpm button knob Hb Hk held.
  destruct (transport_press_self press s Hpress button Hb) as (Hpm1 & Hmode1).
  assert (Hc : _button_hold_action_committed held = true).
  { subst held. destruct Hk as [<- | [<- | []]].
    - apply navigation_knob_turn_commits; [congruence | exact Hmode1].
    - apply pan_knob_turn_commits. }
  split; [exact Hc |].
  apply transport_release_when_committed; assumption.
Qed.

Lemma knob_turn_suppresses_release_action_witness :
  let held := OnNavigationKnobTurned knob_turn_5 (OnTransportsLoop loop_press sample_v7) in
  _button_hold_action_committed held = true /\
  exists tail,
    calls (OnTransportsLoop loop_release held) = calls held ++ tail /\
    Forall is_inter_script_message tail.
Proof.
  assert (Hpress : controlVal loop_press <> 0) by (simpl; lia).
  assert (Hrel : controlVal loop_release = 0) by reflexivity.
  assert (Hpm : _pattern_mode_down sample_v7 = false) by reflexivity.
  apply (knob_turn_suppresses_release_action loop_press loop_release knob_turn_5
           sample_v7 Hpress Hrel Hpm OnTransportsLoop OnNavigationKnobTurned).
  - left. reflexivity.
  - left. reflexivity.
Defined.

Lemma change_playlist_track_marks_update (delta : Z) (s : St) :
  _playlist_track_updated (_change_playlist_track delta s) = true.
Proof. reflexivity. Qed.

(** X8: the save button is a tap-or-hold button.  A press followed directly
    by the release toggles the loop mode once; if the main encoder is turned,
    or the track read or write button pressed, while save is held, the
    release toggles nothing and only ends pattern mode. *)
Theorem save_button_tap_or_hold (press release : Event) (s : St) :
  controlVal press <> 0 ->
  controlVal release = 0 ->
  calls (OnGlobalSave release (OnGlobalSave press s)) = calls s ++ [transport_setLoopMode] /\
  (forall (other : Event) (action : Event -> St -> St),
     In action [OnNavigationKnobTurned; OnTrackRead; OnTrackWrite] ->
     let held := action other (OnGlobalSave press s) in
     calls (OnGlobalSave release held) = calls held /\
     _pattern_mode_down (OnGlobalSave release held) = false).
Proof.
  intros Hpress Hrel. split.
  - unfold OnGlobalSave.
    rewrite (is_pressed_true press Hpress), (is_pressed_false release Hrel). reflexivity.
  - intros other action Hin held.
    assert (Hdown : _pattern_mode_down (OnGlobalSave press s) = true).
    { unfold OnGlobalSave. rewrite (is_pressed_true press Hpress). reflexivity. }
    assert (Hup : _playlist_track_updated held = true).
    { subst held.
      destruct Hin as [<- | [<- | [<- | []]]];
        unfold OnNavigationKnobTurned, OnTrackRead, OnTrackWrite;
        rewrite Hdown; apply change_playlist_track_marks_update. }
    unfold OnGlobalSave. rewrite (is_pressed_false release Hrel).
    cbn. rewrite Hup. cbn. split; reflexivity.
Qed.

Lemma save_button_tap_or_hold_witness :
  calls (OnGlobalSave (control_event 144 80 0) (OnGlobalSave save_press sample_v7)) =
    calls sample_v7 ++ [transport_setLoopMode].
Proof.
  assert (Hpress : controlVal save_press <> 0) by (simpl; lia).
  assert (Hrel : controlVal (control_event 144 80 0) = 0) by reflexivity.
  exact (proj1 (save_button_tap_or_hold save_press (control_event 144 80 0) sample_v7
                  Hpress Hrel)).
Defined.

(** ** Playlist track selection *)

Lemma prefix_of_marked (name : string) : String.prefix "* " ("* " ++ name) = true.
Proof.
  unfold String.append; fold String.append. cbn.
  destruct name; reflexivity.
Qed.

Lemma strip_of_marked (name : string) : _strip_pattern_name ("* " ++ name) = name.
Proof.
  unfold _strip_pattern_name. rewrite prefix_of_marked.
  unfold drop2. unfold String.append; fold String.append. cbn.
  rewrite Nat.sub_0_r. apply substring_all.
Qed.

Lemma deselect_playlist_track_names (s : St) (i j : Z) :
  getTrackName (host (_deselect_playlist_track s i)) j =
    if j =? i then _strip_pattern_name (getTrackName (host s) i)
    else getTrackName (host s) j.
Proof.
  unfold _deselect_playlist_track, _strip_pattern_name.
  destruct (String.prefix "* " (getTrackName (host s) i)) eqn:E; cbn.
  - reflexivity.
  - destruct (Z.eqb_spec j i) as [-> |]; reflexivity.
Qed.

Lemma deselect_playlist_track_count (s : St) (i : Z) :
  trackCount (host (_deselect_playlist_track s i)) = trackCount (host s).
Proof. unfold _deselect_playlist_track. destruct (String.prefix _ _); reflexivity. Qed.

Lemma deselect_loop_names (l : list Z) (j : Z) : forall s : St,
  NoDup l ->
  getTrackName (host (fold_left _deselect_playlist_track l s)) j =
    if bool_decide (j ∈ l) then _strip_pattern_name (getTrackName (host s) j)
    else getTrackName (host s) j.
Proof.
  induction l as [| i l IH]; intros s Hnd; simpl.
  - reflexivity.
  - apply NoDup_cons in Hnd as [Hi Hnd].
    rewrite IH by exact Hnd. rewrite !deselect_playlist_track_names.
    destruct (Z.eqb_spec j i) as [-> | Hne].
    + rewrite (bool_decide_eq_false_2 _ Hi).
      rewrite bool_decide_eq_true_2 by (left). reflexivity.
    + destruct (decide (j ∈ l)) as [Hin | Hnin].
      * rewrite (bool_decide_eq_true_2 _ Hin).
        rewrite bool_decide_eq_true_2 by (right; exact Hin). reflexivity.
      * rewrite (bool_decide_eq_false_2 _ Hnin).
        rewrite bool_decide_eq_false_2; [reflexivity |].
        intros Hin. apply elem_of_cons in Hin as [-> | Hin]; contradiction.
Qed.

(** X9: [_deselect_all_playlist_track] strips one marker from the name of
    every track with an index in [1, trackCount()) and leaves every other
    name alone; in particular the last track, index [trackCount()], which
    [OnUpdatePlaylistTrack] can select, is never deselected. *)
Theorem deselect_all_playlist_track_names (s : St) (j : Z) :
  getTrackName (host (_deselect_all_playlist_track s)) j =
    (if (1 <=? j) && (j <? trackCount (host s))
     then _strip_pattern_name (getTrackName (host s) j)
     else getTrackName (host s) j) /\
  getTrackName (host (_deselect_all_playlist_track s)) (trackCount (host s)) =
    getTrackName (host s) (trackCount (host s)).
Proof.
  assert (Hall : forall k,
    getTrackName (host (_deselect_all_playlist_track s)) k =
      if (1 <=? k) && (k <? trackCount (host s))
      then _strip_pattern_name (getTrackName (host s) k)
      else getTrackName (host s) k).
  { intros k. unfold _deselect_all_playlist_track, range.
    rewrite deselect_loop_names by apply NoDup_seqZ.
    destruct (decide (k ∈ seqZ 1 (trackCount (host s) - 1))) as [Hin | Hnin].
    - rewrite (bool_decide_eq_true_2 _ Hin). apply elem_of_seqZ in Hin.
      destruct (Z.leb_spec 1 k); [| lia]. destruct (Z.ltb_spec k (trackCount (host s))); [| lia].
      reflexivity.
    - rewrite (bool_decide_eq_false_2 _ Hnin). rewrite elem_of_seqZ in Hnin.
      destruct (Z.leb_spec 1 k); [| reflexivity].
      destruct (Z.ltb_spec k (trackCount (host s))); [lia | reflexivity]. }
  split; [apply Hall |].
  rewrite Hall, Z.ltb_irrefl, andb_false_r. reflexivity.
Qed.

Lemma select_playlist_track_marked (track_index : Z) (s : St) :
  String.prefix "* " (getTrackName (host s) track_index) = true ->
  _select_playlist_track track_index s = set_current_playlist_track_index track_index s.
Proof. intros E. unfold _select_playlist_track. rewrite E. reflexivity. Qed.

Lemma select_playlist_track_name (track_index : Z) (s : St) :
  getTrackName (host (_select_playlist_track track_index s)) track_index =
    if String.prefix "* " (getTrackName (host s) track_index)
    then getTrackName (host s) track_index
    else ("* " ++ getTrackName (host s) track_index)%string.
Proof.
  unfold _select_playlist_track.
  destruct (String.prefix "* " (getTrackName (host s) track_index)); [reflexivity |].
  cbn. rewrite Z.eqb_refl. reflexivity.
Qed.

(** X10: after [_select_playlist_track] the track is the current one and its
    name carries the marker, with the same name behind the marker as before;
    selecting the same track again makes no call at all. *)
Theorem select_playlist_track_marks (track_index : Z) (s : St) :
  let s' := _select_playlist_track track_index s in
  _current_playlist_track_index s' = track_index /\
  String.prefix "* " (getTrackName (host s') track_index) = true /\
  _strip_pattern_name (getTrackName (host s') track_index) =
    _strip_pattern_name (getTrackName (host s) track_index) /\
  calls (_select_playlist_track track_index s') = calls s'.
Proof.
  intros s'.
  assert (Hname := select_playlist_track_name track_index s). fold s' in Hname.
  assert (Hmarked : String.prefix "* " (getTrackName (host s') track_index) = true).
  { rewrite Hname.
    destruct (String.prefix "* " (getTrackName (host s) track_index)) eqn:E;
      [exact E | apply prefix_of_marked]. }
  split; [apply select_playlist_track_sets_index |].
  split; [exact Hmarked |]. split.
  - rewrite Hname.
    destruct (String.prefix "* " (getTrackName (host s) track_index)) eqn:E;
      [reflexivity |].
    rewrite strip_of_marked. unfold _strip_pattern_name. rewrite E. reflexivity.
  - rewrite (select_playlist_track_marked track_index s' Hmarked). reflexivity.
Qed.

Lemma change_playlist_track_index (delta : Z) (s : St) :
  _current_playlist_track_index (_change_playlist_track delta s) =
    if (0 <? _current_playlist_track_index s + delta)
       && (_current_playlist_track_index s + delta <=? trackCount (host s))
    then _current_playlist_track_index s + delta
    else _current_playlist_track_index s.
Proof.
  unfold _change_playlist_track. cbv zeta.
  destruct ((0 <? _ + delta) && (_ <=? _)); cbn.
  - apply select_playlist_track_sets_index.
  - reflexivity.
Qed.

Lemma change_playlist_track_count (delta : Z) (s : St) :
  trackCount (host (_change_playlist_track delta s)) = trackCount (host s).
Proof.
  unfold _change_playlist_track. cbv zeta.
  destruct ((0 <? _ + delta) && (_ <=? _)) eqn:E; cbn; [| reflexivity].
  apply andb_true_iff in E as [E1 E2]. apply Z.ltb_lt in E1. apply Z.leb_le in E2.
  destruct (select_playlist_track_in_range (_current_playlist_track_index s + delta) s)
    as (_ & _ & _ & _ & T & _); [lia | exact T].
Qed.

(** X11: the current playlist track stays a valid index.  If it lies in
    [1, trackCount()], it still does after [_change_playlist_track] and after
    [OnUpdatePlaylistTrack], for every delta; [_change_playlist_track] moves
    by exactly [delta] or, when that would leave the range, not at all,
    where [OnUpdatePlaylistTrack] stops at the nearest end. *)
Theorem playlist_track_index_stays_valid (delta : Z) (s : St) :
  1 <= _current_playlist_track_index s <= trackCount (host s) ->
  (1 <= _current_playlist_track_index (_change_playlist_track delta s)
     <= trackCount (host (_change_playlist_track delta s)) /\
   (_current_playlist_track_index (_change_playlist_track delta s) =
      _current_playlist_track_index s + delta \/
    _current_playlist_track_index (_change_playlist_track delta s) =
      _current_playlist_track_index s)) /\
  (1 <= _current_playlist_track_index (OnUpdatePlaylistTrack delta s)
     <= trackCount (host (OnUpdatePlaylistTrack delta s)) /\
   _current_playlist_track_index (OnUpdatePlaylistTrack delta s) =
     clip 1 (trackCount (host s)) (_current_playlist_track_index s + delta)).
Proof.
  intros Hidx. split.
  - rewrite change_playlist_track_count, change_playlist_track_index.
    destruct ((0 <? _ + delta) && (_ <=? _)) eqn:E.
    + apply andb_true_iff in E as [E1 E2]. apply Z.ltb_lt in E1. apply Z.leb_le in E2.
      split; [lia | left; reflexivity].
    + split; [lia | right; reflexivity].
  - unfold OnUpdatePlaylistTrack. cbv zeta.
    rewrite select_playlist_track_sets_index.
    set (track := Z.max 1 (Z.min (trackCount (host s))
                             (_current_playlist_track_index s + delta))).
    assert (Ht : 1 <= track <= trackCount (host s)) by (unfold track; lia).
    destruct (select_playlist_track_in_range track s Ht) as (_ & _ & _ & _ & T & _).
    rewrite T. split; [exact Ht | reflexivity].
Qed.

Lemma playlist_track_index_stays_valid_witness :
  1 <= _current_playlist_track_index (_change_playlist_track 100 sample_v20)
    <= trackCount (host (_change_playlist_track 100 sample_v20)).
Proof.
  assert (H : 1 <= _current_playlist_track_index sample_v20
                <= trackCount (host sample_v20)) by (simpl; lia).
  exact (proj1 (proj1 (playlist_track_index_stays_valid 100 sample_v20 H))).
Defined.

(** ** Pattern selection by name *)

Lemma seqZ_of_to_nat (m n : Z) : seqZ m (Z.of_nat (Z.to_nat n)) = seqZ m n.
Proof. unfold seqZ. rewrite Nat2Z.id. reflexivity. Qed.

Lemma select_pattern_named_loop_first (name : string) (s : St) (k : nat) : forall m : Z,
  (_select_pattern_named_loop name (seqZ m (Z.of_nat k)) s = s /\
   forall i, m <= i < m + Z.of_nat k ->
     _strip_pattern_name (getPatternName (host s) i) <> name) \/
  (exists i,
     m <= i < m + Z.of_nat k /\
     _strip_pattern_name (getPatternName (host s) i) = name /\
     (forall j, m <= j < i -> _strip_pattern_name (getPatternName (host s) j) <> name) /\
     _select_pattern_named_loop name (seqZ m (Z.of_nat k)) s =
       emit (patterns_jumpToPattern i) s).
Proof.
  induction k as [| k IH]; intros m.
  - left. split; [reflexivity | intros i Hi; lia].
  - rewrite seqZ_cons by lia.
    replace (Z.pred (Z.of_nat (S k))) with (Z.of_nat k) by lia.
    simpl.
    destruct (String.eqb (_strip_pattern_name (getPatternName (host s) m)) name) eqn:E.
    + apply String.eqb_eq in E. right. exists m.
      repeat split; try lia; auto.
    + apply String.eqb_neq in E.
      destruct (IH (Z.succ m)) as [(Hs & Hnone) | (i & Hi & Hname & Hfirst & Hs)].
      * left. split; [exact Hs |]. intros i Hi.
        destruct (Z.eq_dec i m) as [-> | Hne]; [exact E | apply Hnone; lia].
      * right. exists i. repeat split; try lia; auto.
        intros j Hj. destruct (Z.eq_dec j m) as [-> | Hne]; [exact E | apply Hfirst; lia].
Qed.

(** X12: [_select_pattern_named] jumps to the first pattern, in index order,
    whose name without the marker is the given name, and makes no other call;
    when no pattern in [1, patternCount()] has the name it does nothing. *)
Theorem select_pattern_named_first_match (name : string) (s : St) :
  (_select_pattern_named name s = s /\
   forall i, 1 <= i <= patternCount (host s) ->
     _strip_pattern_name (getPatternName (host s) i) <> name) \/
  (exists i,
     1 <= i <= patternCount (host s) /\
     _strip_pattern_name (getPatternName (host s) i) = name /\
     (forall j, 1 <= j < i -> _strip_pattern_name (getPatternName (host s) j) <> name) /\
     _select_pattern_named name s = emit (patterns_jumpToPattern i) s).
Proof.
  unfold _select_pattern_named, range.
  rewrite <- seqZ_of_to_nat.
  destruct (select_pattern_named_loop_first name s
              (Z.to_nat (patternCount (host s) + 1 - 1)) 1)
    as [(Hs & Hnone) | (i & Hi & Hname & Hfirst & Hs)].
  - left. split; [exact Hs |]. intros i Hi. apply Hnone. lia.
  - right. exists i. repeat split; try lia; auto.
Qed.

Lemma named_run_refl (name : string) (s : St) : named_run name s s.
Proof. exists []. rewrite app_nil_r. repeat split; auto. Qed.

Lemma jumps_to_name_ext (h h' : Host) (name : string) (c : Call) :
  getPatternName h' = getPatternName h -> jumps_to_name h name c -> jumps_to_name h' name c.
Proof. intros E. destruct c; simpl; rewrite ?E; auto. Qed.

Lemma named_run_trans (name : string) (s1 s2 s3 : St) :
  named_run name s1 s2 -> named_run name s2 s3 -> named_run name s1 s3.
Proof.
  intros (l1 & E1 & F1 & N1 & O1) (l2 & E2 & F2 & N2 & O2).
  exists (l1 ++ l2). repeat split.
  - rewrite E2, E1, app_assoc. reflexivity.
  - apply Forall_app; split; [exact F1 |].
    eapply Forall_impl; [exact F2 |]. intros c. cbv beta.
    apply jumps_to_name_ext. symmetry. exact N1.
  - congruence.
  - auto.
Qed.

Lemma named_run_emit (name : string) (c : Call) (s : St) :
  jumps_to_name (host s) name c -> named_run name s (emit c s).
Proof.
  intros Hc. exists [c]. repeat split.
  - repeat constructor. exact Hc.
  - destruct c; reflexivity.
  - unfold on_pattern_named. destruct c; cbn; auto.
Qed.

Lemma named_run_same (name : string) (s s' : St) :
  calls s' = calls s -> host s' = host s -> named_run name s s'.
Proof.
  intros Hc Hh. exists []. rewrite app_nil_r. unfold on_pattern_named. rewrite Hh.
  repeat split; auto.
Qed.

Lemma deselect_all_named_run (name : string) (s : St) :
  named_run name s (_deselect_all_playlist_track s).
Proof.
  unfold _deselect_all_playlist_track.
  generalize (range 1 (trackCount (host s))). intros l. revert s.
  induction l as [| i l IH]; intros s; simpl.
  - apply named_run_refl.
  - eapply named_run_trans; [| apply IH].
    unfold _deselect_playlist_track.
    destruct (String.prefix _ _); [| apply named_run_refl].
    apply named_run_emit. exact I.
Qed.

Lemma select_pattern_named_named_run (name : string) (s : St) :
  named_run name s (_select_pattern_named name s).
Proof.
  unfold _select_pattern_named.
  generalize (range 1 (patternCount (host s) + 1)). intros l.
  induction l as [| i l IH]; simpl.
  - apply named_run_refl.
  - destruct (String.eqb _ _) eqn:E; [| exact IH].
    apply String.eqb_eq in E. apply named_run_emit. exact E.
Qed.

Lemma select_playlist_track_named_run (track_index : Z) (s : St) :
  named_run (_strip_pattern_name (getTrackName (host s) track_index)) s
    (_select_playlist_track track_index s).
Proof.
  unfold _select_playlist_track, _strip_pattern_name at 1.
  destruct (String.prefix "* " (getTrackName (host s) track_index)).
  - apply named_run_same; reflexivity.
  - set (name := getTrackName (host s) track_index).
    set (s0 := set_current_playlist_track_index track_index s).
    eapply named_run_trans; [apply (named_run_same name s s0); reflexivity |].
    eapply named_run_trans; [apply deselect_all_named_run |].
    eapply named_run_trans; [apply select_pattern_named_named_run |].
    apply named_run_emit. exact I.
Qed.

Lemma select_playlist_track_named_named_run (name : string) (s : St) :
  named_run name s (_select_playlist_track_named name s).
Proof.
  unfold _select_playlist_track_named.
  generalize (range 1 (trackCount (host s))). intros l.
  induction l as [| i l IH]; simpl.
  - apply named_run_refl.
  - destruct (String.eqb _ _) eqn:E; [| exact IH].
    apply String.eqb_eq in E. rewrite <- E. apply select_playlist_track_named_run.
Qed.

(** X13: the pattern sync never lands on a pattern of another name.
    [_jump_and_sync_select_pattern] first jumps to the given index; every
    later jump it makes, through the playlist track of that name, goes to a
    pattern whose name without the marker is the one of the given index, and
    the host's current pattern has that name when the method returns. *)
Theorem jump_and_sync_keeps_pattern_name (index : Z) (s : St) :
  let name := _strip_pattern_name (getPatternName (host s) index) in
  let s' := _jump_and_sync_select_pattern index s in
  (exists rest,
     calls s' = calls s ++ patterns_jumpToPattern index :: rest /\
     Forall (jumps_to_name (host s) name) rest) /\
  _strip_pattern_name (getPatternName (host s) (patternNumber (host s'))) = name.
Proof.
  intros name s'. subst s'. unfold _jump_and_sync_select_pattern. cbv zeta.
  set (s0 := emit (patterns_jumpToPattern index) s).
  change (_strip_pattern_name (getPatternName (host s0) index)) with name.
  destruct (select_playlist_track_named_named_run name s0) as (rest & E & F & N & O).
  split.
  - exists rest. split.
    + rewrite E. unfold s0. simpl. rewrite <- app_assoc. reflexivity.
    + exact F.
  - assert (H0 : on_pattern_named name s0) by reflexivity.
    specialize (O H0). unfold on_pattern_named in O. rewrite N in O. exact O.
Qed.

(** ** Stepping through the patterns *)

(** X14: with the save button up and the host on a valid pattern, the track
    read and write buttons step to the previous and the next pattern and stop
    at the ends: read on the first pattern and write on the last one do
    nothing, and every index they ever pass to the host is in range. *)
Theorem track_read_write_bounds (event : Event) (s : St) :
  _pattern_mode_down s = false ->
  1 <= patternNumber (host s) <= patternCount (host s) ->
  (patternNumber (host s) = 1 -> OnTrackRead event s = s) /\
  (patternNumber (host s) = patternCount (host s) -> OnTrackWrite event s = s) /\
  (1 < patternNumber (host s) ->
     exists rest,
       calls (OnTrackRead event s) =
         calls s ++ patterns_jumpToPattern (patternNumber (host s) - 1) :: rest /\
       Forall (index_in_range (host s)) rest) /\
  (patternNumber (host s) < patternCount (host s) ->
     exists rest,
       calls (OnTrackWrite event s) =
         calls s ++ patterns_jumpToPattern (patternNumber (host s) + 1) :: rest /\
       Forall (index_in_range (host s)) rest).
Proof.
  intros Hpm Hpn. unfold OnTrackRead, OnTrackWrite. rewrite Hpm. cbn [negb].
  split; [| split; [| split]].
  - intros H1. rewrite H1. reflexivity.
  - intros Hlast.
    destruct (Z.ltb_spec (patternCount (host s)) (patternNumber (host s) + 1));
      [reflexivity | lia].
  - intros H1.
    destruct (Z.leb_spec (patternNumber (host s) - 1) 0); [lia |].
    apply jump_and_sync_select_pattern_in_range. lia.
  - intros Hlast.
    destruct (Z.ltb_spec (patternCount (host s)) (patternNumber (host s) + 1)); [lia |].
    apply jump_and_sync_select_pattern_in_range. lia.
Qed.

Lemma track_read_write_bounds_witness :
  OnTrackRead (control_event 144 74 127) sample_v20 = sample_v20 /\
  exists rest,
    calls (OnTrackWrite (control_event 144 75 127) sample_v20) =
      calls sample_v20 ++
      patterns_jumpToPattern (patternNumber (host sample_v20) + 1) :: rest /\
    Forall (index_in_range (host sample_v20)) rest.
Proof.
  assert (Hpm : _pattern_mode_down sample_v20 = false) by reflexivity.
  assert (Hpn : 1 <= patternNumber (host sample_v20) <= patternCount (host sample_v20))
    by (simpl; lia).
  split.
  - apply (proj1 (track_read_write_bounds (control_event 144 74 127) sample_v20 Hpm Hpn)).
    reflexivity.
  - apply (proj2 (proj2 (proj2 (track_read_write_bounds (control_event 144 75 127)
                                  sample_v20 Hpm Hpn)))).
    simpl; lia.
Defined.

(** ** Naming a new pattern *)

Lemma generator_contains_found (x : string) (it rest : list string) :
  generator_contains x it = (true, rest) ->
  exists pre, it = pre ++ x :: rest /\ ~ In x pre.
Proof.
  revert rest. induction it as [| y it IH]; intros rest H; simpl in H.
  - discriminate H.
  - destruct (String.eqb y x) eqn:E.
    + apply String.eqb_eq in E. inversion H; subst. exists []. split; [reflexivity | intros []].
    + apply String.eqb_neq in E. destruct (IH rest H) as (pre & -> & Hpre).
      exists (y :: pre). split; [reflexivity |]. intros [Hy | Hin]; [contradiction | auto].
Qed.

Lemma generator_contains_missing (x : string) (it : list string) :
  ~ In x it <-> generator_contains x it = (false, []).
Proof.
  induction it as [| y it IH]; simpl.
  - split; [reflexivity | intros _ []].
  - destruct (String.eqb y x) eqn:E.
    + apply String.eqb_eq in E. split; [intros H; exfalso; apply H; auto | discriminate].
    + apply String.eqb_neq in E. rewrite <- IH. split.
      * intros H Hin. apply H. right. exact Hin.
      * intros H [Hy | Hin]; [contradiction | auto].
Qed.

Lemma generator_contains_split (x : string) (pre post : list string) :
  ~ In x pre -> generator_contains x (pre ++ x :: post) = (true, post).
Proof.
  induction pre as [| y pre IH]; intros Hpre; simpl.
  - rewrite String.eqb_refl. reflexivity.
  - destruct (String.eqb y x) eqn:E.
    + apply String.eqb_eq in E. exfalso. apply Hpre. left. exact E.
    + apply IH. intros Hin. apply Hpre. right. exact Hin.
Qed.

Lemma generator_contains_cases (x : string) (it : list string) :
  (~ In x it /\ generator_contains x it = (false, [])) \/
  (In x it /\ exists rest,
     generator_contains x it = (true, rest) /\ (length rest < length it)%nat).
Proof.
  destruct (generator_contains x it) as [[|] rest] eqn:E.
  - right. destruct (generator_contains_found x it rest E) as (pre & -> & _).
    split; [apply in_or_app; right; left; reflexivity |].
    exists rest. split; [reflexivity |]. rewrite length_app. simpl. lia.
  - left. assert (Hm : ~ In x it).
    { intros Hin. apply in_split in Hin as (l1 & l2 & ->).
      clear -E. induction l1 as [| y l1 IH]; simpl in E.
      - rewrite String.eqb_refl in E. discriminate E.
      - destruct (String.eqb y x); [discriminate E | auto]. }
    split; [exact Hm |]. rewrite <- E. apply generator_contains_missing. exact Hm.
Qed.

(** The loop has more suggestions than the generator has names left, so it
    returns from inside. *)
Lemma next_pattern_name_loop_returns (name : string) (indices : list Z) :
  forall pattern_names : list string,
    (length pattern_names < length indices)%nat ->
    exists i, In i indices /\
      _next_pattern_name_loop name indices pattern_names =
        Some (name ++ " #" ++ fmt_d i)%string.
Proof.
  induction indices as [| i indices IH]; intros pattern_names Hlen; simpl in *.
  - lia.
  - destruct (generator_contains_cases (name ++ " #" ++ fmt_d i)%string pattern_names)
      as [(_ & ->) | (_ & rest & -> & Hrest)]; cbn.
    + exists i. auto.
    + destruct (IH rest) as (j & Hj & ->); [lia |]. exists j. auto.
Qed.

Lemma all_pattern_names_length (s : St) :
  length (_all_pattern_names s) = length (range 1 (patternCount (host s) + 1)).
Proof. unfold _all_pattern_names. apply length_map. Qed.

(** X15: [_next_pattern_name] returns the selected channel's name when no
    pattern has it, and otherwise a suggestion "name #i" with i in
    [1, patternCount()]; the final "name - n" return is never reached. *)
Theorem next_pattern_name_never_falls_back (s : St) :
  let name := _strip_pattern_name (getChannelName (host s) (selectedChannel (host s))) in
  (~ In name (_all_pattern_names s) /\ _next_pattern_name s = name) \/
  (In name (_all_pattern_names s) /\
   exists i, 1 <= i <= patternCount (host s) /\
     _next_pattern_name s = (name ++ " #" ++ fmt_d i)%string).
Proof.
  intros name. unfold _next_pattern_name. fold name.
  destruct (generator_contains_cases name (_all_pattern_names s))
    as [(Hm & ->) | (Hin & rest & -> & Hrest)]; cbn.
  - left. auto.
  - right. split; [exact Hin |].
    rewrite all_pattern_names_length in Hrest.
    destruct (next_pattern_name_loop_returns name
                (range 1 (patternCount (host s) + 1)) rest Hrest) as (i & Hi & ->).
    exists i. split; [| reflexivity].
    apply list_elem_of_In in Hi.
    pose proof (proj1 (Forall_forall _ _) (range_bounds 1 (patternCount (host s) + 1)) i Hi)
      as Hb. cbv beta in Hb. lia.
Qed.

(** X16: the suggestion is not checked against the names the generator has
    already yielded.  If the channel's name first occurs after [pre] in the
    pattern names and "name #1" does not occur after it, the method returns
    "name #1", whether or not a pattern in [pre] is already called so. *)
Theorem next_pattern_name_skips_consumed_names (s : St) (pre post : list string) :
  let name := _strip_pattern_name (getChannelName (host s) (selectedChannel (host s))) in
  _all_pattern_names s = pre ++ name :: post ->
  ~ In name pre ->
  ~ In (name ++ " #1")%string post ->
  _next_pattern_name s = (name ++ " #1")%string.
Proof.
  intros name Hnames Hpre Hpost. unfold _next_pattern_name. fold name.
  rewrite Hnames, (generator_contains_split name pre post Hpre). cbn [negb].
  assert (Hlen : (0 < length (range 1 (patternCount (host s) + 1)))%nat).
  { rewrite <- all_pattern_names_length, Hnames, length_app. simpl. lia. }
  unfold range in *. rewrite length_seqZ in Hlen.
  rewrite seqZ_cons by lia. simpl.
  change (fmt_d 1) with "1"%string.
  apply generator_contains_missing in Hpost.
  change (name ++ " #" ++ "1")%string with (name ++ " #1")%string.
  rewrite Hpost. reflexivity.
Qed.

Lemma next_pattern_name_skips_consumed_names_witness :
  _next_pattern_name clash_session = "A #1"%string /\
  In (_next_pattern_name clash_session) (_all_pattern_names clash_session).
Proof.
  assert (H : _next_pattern_name clash_session = ("A" ++ " #1")%string).
  { apply (next_pattern_name_skips_consumed_names clash_session ["A #1"%string] []).
    - reflexivity.
    - intros [H | []]. discriminate H.
    - intros []. }
  split; [exact H |]. rewrite H. left. reflexivity.
Defined.

(** ** Channel routed to a mixer track *)

Lemma channel_with_route_loop_first (target : Z -> Z) (track : Z) (k : nat) : forall m : Z,
  0 <= m ->
  let r := _channel_with_route_to_mixer_track_loop target track (seqZ m (Z.of_nat k)) in
  (r = -1 /\ forall i, m <= i < m + Z.of_nat k -> target i <> track) \/
  (m <= r < m + Z.of_nat k /\ target r = track /\
   forall j, m <= j < r -> target j <> track).
Proof.
  induction k as [| k IH]; intros m Hm.
  - left. split; [reflexivity | intros i Hi; lia].
  - cbv zeta. rewrite seqZ_cons by lia.
    replace (Z.pred (Z.of_nat (S k))) with (Z.of_nat k) by lia.
    simpl. destruct (Z.eqb_spec (target m) track) as [E | E].
    + right. repeat split; try lia; auto.
    + destruct (IH (Z.succ m)) as [(Hr & Hnone) | (Hr & Ht & Hfirst)]; [lia | |].
      * left. split; [exact Hr |]. intros i Hi.
        destruct (Z.eq_dec i m) as [-> | Hne]; [exact E | apply Hnone; lia].
      * right. repeat split; try lia; auto.
        intros j Hj. destruct (Z.eq_dec j m) as [-> | Hne]; [exact E | apply Hfirst; lia].
Qed.

(** X17: [_channel_with_route_to_mixer_track] returns the lowest channel index
    in [0, channelCount()) whose target mixer track is the given one, and -1
    exactly when no channel is routed to it. *)
Theorem channel_with_route_first_match (getTargetFxTrack : Z -> Z) (track : Z) (s : St) :
  let r := _channel_with_route_to_mixer_track getTargetFxTrack track s in
  (r = -1 /\
   forall i, 0 <= i < channelCount (host s) -> getTargetFxTrack i <> track) \/
  (0 <= r < channelCount (host s) /\ getTargetFxTrack r = track /\
   forall j, 0 <= j < r -> getTargetFxTrack j <> track).
Proof.
  cbv zeta. unfold _channel_with_route_to_mixer_track, range.
  rewrite <- seqZ_of_to_nat.
  destruct (channel_with_route_loop_first getTargetFxTrack track
              (Z.to_nat (channelCount (host s) - 0)) 0 (Z.le_refl 0))
    as [(Hr & Hnone) | (Hr & Ht & Hfirst)].
  - left. split; [exact Hr |]. intros i Hi. apply Hnone. lia.
  - right. repeat split; try lia; auto.
Qed.

(** ** Pan knobs *)




(** ** Routing by message class and control number *)

Lemma SetHandlerForKeys_lookup_member (keys : list Z) (cb : Handler)
    (filter_fn : option Guard) (k : Z) : forall d : MidiEventDispatcher,
  In k keys ->
  dispatch_map (SetHandlerForKeys keys cb filter_fn d) !! k =
    Some (cb, default default_guard filter_fn).
Proof.
  induction keys as [| k' keys IH]; intros d Hin; [destruct Hin |].
  destruct (in_dec Z.eq_dec k keys) as [Hk | Hk].
  - unfold SetHandlerForKeys in *. simpl. apply IH. exact Hk.
  - destruct Hin as [-> | Hin]; [| contradiction].
    change (SetHandlerForKeys (k :: keys) cb filter_fn d)
      with (SetHandlerForKeys keys cb filter_fn (SetHandler k cb filter_fn d)).
    rewrite SetHandlerForKeys_lookup_other by exact Hk.
    unfold SetHandler. cbn. apply lookup_insert_eq.
Qed.

Lemma knob_dispatcher_entries (k : Z) :
  (k = 60 ->
     dispatch_map _knob_dispatcher !! k = Some (reads OnNavigationKnobTurned, default_guard)) /\
  (16 <= k <= 24 ->
     dispatch_map _knob_dispatcher !! k = Some (reads OnPanKnobTurned, default_guard)).
Proof.
  unfold _knob_dispatcher. split.
  - intros ->. unfold SetHandler at 1. cbn. apply lookup_insert_eq.
  - intros Hk. unfold SetHandler at 1. cbn [dispatch_map].
    rewrite lookup_insert_ne by lia.
    apply SetHandlerForKeys_lookup_member.
    apply list_elem_of_In. unfold range. apply elem_of_seqZ. lia.
Qed.

(** X19: routing as [__init__] builds it.  A message of a class other than
    144, 176 and 224 is not processed: [ProcessEvent] returns False and
    neither the event nor the processor changes.  A knob message (class 176)
    with a nonzero value reaches [OnNavigationKnobTurned] for control 60 and
    [OnPanKnobTurned] for controls 16..24, with its handled marker cleared. *)
Theorem process_event_routing (_midi_command_dispatcher : MidiEventDispatcher)
    (event : Event) (s : St) :
  (midiId event <> 144 -> midiId event <> 176 -> midiId event <> 224 ->
     ProcessEvent _midi_command_dispatcher event s = (false, event, s)) /\
  (midiId event = 176 -> controlVal event <> 0 -> controlNum event = 60 ->
     ProcessEvent _midi_command_dispatcher event s =
       (true, set_handled false event,
        OnNavigationKnobTurned (set_handled false event) s)) /\
  (midiId event = 176 -> controlVal event <> 0 -> 16 <= controlNum event <= 24 ->
     ProcessEvent _midi_command_dispatcher event s =
       (true, set_handled false event, OnPanKnobTurned (set_handled false event) s)).
Proof.
  assert (Hknob : midiId event = 176 -> controlVal event <> 0 ->
            ProcessEvent _midi_command_dispatcher event s =
              (true, fst (OnKnobEvent event s), snd (OnKnobEvent event s))).
  { intros Hid Hval. unfold ProcessEvent, Dispatch, _midi_id_dispatcher, SetHandler.
    cbn [dispatch_map transform_fn]. unfold by_midi_id. rewrite Hid.
    rewrite lookup_insert_ne by lia. rewrite lookup_insert_eq.
    cbn [default]. unfold default_guard.
    destruct (Z.eqb_spec (controlVal event) 0); [contradiction |]. cbn [negb].
    destruct (OnKnobEvent event s). reflexivity. }
  assert (Hpass : controlVal event <> 0 -> default_guard (set_handled false event) = true).
  { intros Hval. unfold default_guard. cbn.
    destruct (Z.eqb_spec (controlVal event) 0); [contradiction | reflexivity]. }
  split; [| split].
  - intros H144 H176 H224. unfold ProcessEvent. apply Dispatch_no_entry.
    unfold _midi_id_dispatcher, SetHandler. cbn [dispatch_map transform_fn].
    unfold by_midi_id.
    rewrite !lookup_insert_ne by congruence. apply lookup_empty.
  - intros Hid Hval Hnum. rewrite (Hknob Hid Hval).
    unfold OnKnobEvent, Dispatch. cbn [transform_fn _knob_dispatcher].
    replace (transform_fn _knob_dispatcher (set_handled false event)) with 60
      by (symmetry; exact Hnum).
    rewrite (proj1 (knob_dispatcher_entries 60) eq_refl), (Hpass Hval). reflexivity.
  - intros Hid Hval Hnum. rewrite (Hknob Hid Hval).
    unfold OnKnobEvent, Dispatch.
    change (transform_fn _knob_dispatcher (set_handled false event))
      with (controlNum event).
    rewrite (proj2 (knob_dispatcher_entries (controlNum event)) Hnum), (Hpass Hval).
    reflexivity.
Qed.

Lemma process_event_routing_witness :
  ProcessEvent sample_command_dispatcher (control_event 128 60 5) sample_v7 =
    (false, control_event 128 60 5, sample_v7) /\
  ProcessEvent sample_command_dispatcher knob_turn_5 sample_v7 =
    (true, set_handled false knob_turn_5,
     OnNavigationKnobTurned (set_handled false knob_turn_5) sample_v7).
Proof.
  split.
  - apply (proj1 (process_event_routing sample_command_dispatcher
                    (control_event 128 60 5) sample_v7)); simpl; lia.
  - apply (proj1 (proj2 (process_event_routing sample_command_dispatcher knob_turn_5
                           sample_v7))); simpl; (reflexivity || lia).
Defined.

(** ** Windows *)

Lemma Window_eqb_refl (w : Window) : Window_eqb w w = true.
Proof. destruct w; reflexivity. Qed.

(** X20: [_show_and_focus] shows the window only if the host reports it
    hidden and focuses it only if the host reports it unfocused, in this
    order and with no other call; in the host store the window is visible
    and focused afterwards, so that a second call changes nothing. *)
Theorem show_and_focus_effect (window : Window) (s : St) :
  let s' := _show_and_focus window s in
  calls s' =
    calls s ++ (if getVisible (host s) window then [] else [ui_showWindow window])
            ++ (if getFocused (host s) window then [] else [ui_setFocused window]) /\
  getVisible (host s') window = true /\
  getFocused (host s') window = true /\
  _show_and_focus window s' = s'.
Proof.
  intros s'.
  assert (Hpost : getVisible (host s') window = true /\ getFocused (host s') window = true).
  { subst s'. unfold _show_and_focus.
    destruct (getVisible (host s) window) eqn:Ev; cbn [negb].
    - destruct (getFocused (host s) window) eqn:Ef; cbn [negb]; cbn.
      + auto.
      + rewrite Window_eqb_refl. auto.
    - cbn. destruct (getFocused (host s) window) eqn:Ef; cbn;
        rewrite Window_eqb_refl; auto. }
  split; [| split; [exact (proj1 Hpost) | split; [exact (proj2 Hpost) |]]].
  - subst s'. unfold _show_and_focus.
    destruct (getVisible (host s) window); cbn [negb].
    + destruct (getFocused (host s) window); cbn; rewrite ?app_nil_r; reflexivity.
    + cbn. destruct (getFocused (host s) window); cbn; rewrite <- ?app_assoc; reflexivity.
  - destruct Hpost as (Hv & Hf). unfold _show_and_focus at 1.
    rewrite Hv. cbn [negb]. rewrite Hf. reflexivity.
Qed.

(** ** Pressing twice before a release *)

(** X21: the registry of long-press tasks keeps one handle per control and a
    new press overwrites it without cancelling.  After two presses of the
    same control with no release in between, the release cancels the second
    task and runs the short-press callback, and the first task is still
    pending in the scheduler, out of reach of any later release. *)
Theorem second_press_orphans_first_task (press1 press2 release : Event)
    (short_fn : Event -> St -> St) (long_fn : LongPressFn) (s : St) :
  controlVal press1 <> 0 ->
  controlVal press2 <> 0 ->
  controlVal release = 0 ->
  controlNum press2 = controlNum press1 ->
  controlNum release = controlNum press1 ->
  let first := next_handle (scheduler s) in
  let s2 := _detect_long_press press2 short_fn long_fn
              (_detect_long_press press1 short_fn long_fn s) in
  exists s3,
    _detect_long_press release short_fn long_fn s2 = short_fn release s3 /\
    pending (scheduler s3) !! first = Some (mkTask long_fn press1 450) /\
    pending (scheduler s3) !! S first = None /\
    _long_press_tasks s3 !! controlNum press1 = Some (S first) /\
    calls s3 =
      calls s ++ [scheduler_ScheduleTask long_fn press1 450;
                  scheduler_ScheduleTask long_fn press2 450;
                  scheduler_CancelTask (S first)].
Proof.
  intros Hp1 Hp2 Hrel Hn2 Hn3 first s2. subst s2.
  unfold _detect_long_press.
  rewrite (is_pressed_true press1 Hp1), (is_pressed_true press2 Hp2),
    (is_pressed_false release Hrel).
  cbn. rewrite Hn2, Hn3. rewrite lookup_insert_eq.
  unfold scheduler_cancel, CancelTask. cbn. rewrite lookup_insert_eq. cbn.
  eexists. split; [reflexivity |]. cbn. fold first.
  repeat split.
  - rewrite lookup_delete_ne by lia. rewrite lookup_insert_ne by lia.
    apply lookup_insert_eq.
  - apply lookup_delete_eq.
  - apply lookup_insert_eq.
  - rewrite <- !app_assoc. reflexivity.
Qed.

Lemma second_press_orphans_first_task_witness :
  let press := control_event 144 81 127 in
  let release := control_event 144 81 0 in
  let s2 := _detect_long_press press sample_short_fn OnGlobalUndoLongPress
              (_detect_long_press press sample_short_fn OnGlobalUndoLongPress sample_v7) in
  exists s3,
    _detect_long_press release sample_short_fn OnGlobalUndoLongPress s2 =
      sample_short_fn release s3 /\
    pending (scheduler s3) !! next_handle (scheduler sample_v7) =
      Some (mkTask OnGlobalUndoLongPress press 450).
Proof.
  intros press release s2.
  assert (Hp : controlVal press <> 0) by (simpl; lia).
  assert (Hr : controlVal release = 0) by reflexivity.
  destruct (second_press_orphans_first_task press press release sample_short_fn
              OnGlobalUndoLongPress sample_v7 Hp Hp Hr eq_refl eq_refl)
    as (s3 & H1 & H2 & _).
  exists s3. split; [exact H1 | exact H2].
Defined.

(** ** The mask over a sequence of button messages *)

Lemma transport_masks_disjoint (a b : TransportButton) :
  TransportButton_eqb a b = false -> Z.land (transport_mask b) (transport_mask a) = 0.
Proof. destruct a, b; intros H; try discriminate H; reflexivity. Qed.

Lemma transport_handler_mask (b : TransportButton) (event : Event) (s : St) :
  _button_mode (transport_handler b event s) =
    if _is_pressed event then Z.lor (_button_mode s) (transport_mask b)
    else Z.land (_button_mode s) (Z.lnot (transport_mask b)).
Proof.
  destruct (transport_handler_mode event s) as (Hl & Hr & Hp & Hs). cbv zeta in *.
  destruct b; assumption.
Qed.

(** X22: the mask tracks the buttons that are down.  Over any sequence of
    press and release messages of the loop, record, play and stop buttons,
    if the mask agrees with the set of held buttons at the start, it agrees
    with it at the end: a button's bit is set exactly when its last message
    was a press. *)
Theorem button_mode_tracks_held_buttons (messages : list (TransportButton * Event)) :
  forall (s : St) (held : TransportButton -> bool),
    (forall b, Z.land (_button_mode s) (transport_mask b) =
               if held b then transport_mask b else 0) ->
    forall b,
      Z.land (_button_mode (run_transport messages s)) (transport_mask b) =
        if held_after messages held b then transport_mask b else 0.
Proof.
  induction messages as [| [b0 event] rest IH]; intros s held Hinv b; simpl.
  - apply Hinv.
  - apply IH. clear b. intros b. rewrite transport_handler_mask.
    destruct (TransportButton_eqb b b0) eqn:E.
    + assert (b = b0) as -> by (destruct b, b0; try discriminate E; reflexivity).
      destruct (_is_pressed event); [apply mask_asserted | apply mask_cleared].
    + pose proof (transport_masks_disjoint b b0 E) as Hd.
      destruct (_is_pressed event).
      * rewrite lor_keeps_disjoint_mask by exact Hd. apply Hinv.
      * rewrite clear_keeps_disjoint_mask by exact Hd. apply Hinv.
Qed.

Lemma button_mode_tracks_held_buttons_witness :
  Z.land (_button_mode (run_transport [(LoopButton, loop_press); (RecordButton, record_press);
                                       (LoopButton, loop_release)] sample_v7))
         (transport_mask RecordButton) = transport_mask RecordButton /\
  Z.land (_button_mode (run_transport [(LoopButton, loop_press); (RecordButton, record_press);
                                       (LoopButton, loop_release)] sample_v7))
         (transport_mask LoopButton) = 0.
Proof.
  assert (H0 : forall b, Z.land (_button_mode sample_v7) (transport_mask b) =
                         if (fun _ : TransportButton => false) b then transport_mask b else 0)
    by (intros b; reflexivity).
  split.
  - exact (button_mode_tracks_held_buttons _ sample_v7 (fun _ => false) H0 RecordButton).
  - exact (button_mode_tracks_held_buttons _ sample_v7 (fun _ => false) H0 LoopButton).
Defined.

Lemma transport_bits_independent_witness :
  Z.land (_button_mode (OnTransportsLoop loop_release
                          (OnTransportsRecord record_press sample_v7))) REC_BUTTON_MASK =
  Z.land (_button_mode (OnTransportsRecord record_press sample_v7)) REC_BUTTON_MASK.
Proof.
  apply (proj1 (transport_bits_independent loop_release
                  (OnTransportsRecord record_press sample_v7))).
  left. reflexivity.
Defined.
